(** * Zenodo RDM: legacy JSON serializer and legacy-record migration transform

    A shallow embedding of
      - [site/zenodo_rdm/legacy/serializers/schemas/legacyjson.py]
        (classes [MetadataSchema] and [LegacySchema]), and
      - [site/zenodo_rdm/migrator/transform/records.py]
        (classes [ZenodoRecordEntry] and [ZenodoRecordTransform]),
    followed by the properties of these functions.

    Python values are embedded as a small universe of JSON-like data,
    exceptions as an error monad, and the external collaborators (the
    awards and funders services, the helpers inherited from
    [common.MetadataSchema], the [FUNDER_ROR_TO_DOI] table and the
    interpreter's [str()]) as section variables. *)

From Stdlib Require Import String Ascii List ZArith Bool Lia DecimalString.
Import ListNotations.

Local Open Scope string_scope.
Local Open Scope list_scope.
Local Open Scope Z_scope.

(** ** Python values and exceptions *)

(** The values the two modules handle: what [json] produces, plus
    marshmallow's [missing] sentinel.  A [dict] is an association list in
    insertion order with string keys; Python's [int] is unbounded, hence
    [Z].  A [str] is kept as its UTF-8 bytes: the code only ever searches
    for the ASCII characters '-' and ':' (no byte of a multi-byte sequence
    is an ASCII byte), so splitting bytes and splitting code points agree;
    iterating and indexing a str go by code point ([chars] below). *)
#[warnings="-register-all"]
Inductive pyval : Type :=
| PNone
| PBool (b : bool)
| PInt (z : Z)
| PStr (s : string)
| PList (l : list pyval)
| PDict (d : list (string * pyval))
| PMissing.

(** The exceptions that can leave the embedded functions. *)
Inductive exn : Type :=
| KeyError
| TypeError
| AttributeError
| IndexError
| PIDDeletedError
| PIDDoesNotExistError
| OtherError (msg : string).

Inductive outcome (A : Type) : Type :=
| Ok (a : A)
| Raise (e : exn).

Arguments Ok {A} a.
Arguments Raise {A} e.

Definition bind {A B : Type} (m : outcome A) (k : A -> outcome B) : outcome B :=
  match m with
  | Ok a => k a
  | Raise e => Raise e
  end.

Notation "x <- m ;; k" := (bind m (fun x => k))
  (at level 61, m at next level, right associativity).

(** ** Dictionaries *)

Fixpoint dict_lookup (k : string) (d : list (string * pyval)) : option pyval :=
  match d with
  | [] => None
  | (k', v) :: d' => if String.eqb k k' then Some v else dict_lookup k d'
  end.

(** [d[k] = v] on the association list: an existing key keeps its place,
    a new key goes last. *)
Fixpoint dict_set (k : string) (v : pyval) (d : list (string * pyval))
  : list (string * pyval) :=
  match d with
  | [] => [(k, v)]
  | (k', v') :: d' =>
      if String.eqb k k' then (k, v) :: d' else (k', v') :: dict_set k v d'
  end.

(** ** Built-in operations *)

(** [bool(v)]; marshmallow's [missing] defines [__bool__] as [False]. *)
Definition truthy (v : pyval) : bool :=
  match v with
  | PNone => false
  | PBool b => b
  | PInt z => negb (z =? 0)
  | PStr s => negb (String.eqb s "")
  | PList l => match l with [] => false | _ => true end
  | PDict d => match d with [] => false | _ => true end
  | PMissing => false
  end.

(** [v.get(k, default)]: only a dict has the method. *)
Definition py_get (v : pyval) (k : string) (default : pyval) : outcome pyval :=
  match v with
  | PDict d =>
      match dict_lookup k d with
      | Some x => Ok x
      | None => Ok default
      end
  | _ => Raise AttributeError
  end.

(** [v[k]] for a string key [k]. *)
Definition getitem (v : pyval) (k : string) : outcome pyval :=
  match v with
  | PDict d =>
      match dict_lookup k d with
      | Some x => Ok x
      | None => Raise KeyError
      end
  | _ => Raise TypeError
  end.

(** [v[k] = x] for a string key [k]; the updated object is returned. *)
Definition setitem (v : pyval) (k : string) (x : pyval) : outcome pyval :=
  match v with
  | PDict d => Ok (PDict (dict_set k x d))
  | _ => Raise TypeError
  end.

(** [l[i]] on a sequence, negative indices counting from the end. *)
Definition py_index {A : Type} (l : list A) (i : Z) : outcome A :=
  let n := Z.of_nat (length l) in
  let j := if i <? 0 then i + n else i in
  if (j <? 0) || (n <=? j) then Raise IndexError
  else match nth_error l (Z.to_nat j) with
       | Some x => Ok x
       | None => Raise IndexError
       end.

(** A byte of the form 10xxxxxx, which continues a multi-byte UTF-8
    sequence. *)
Definition is_continuation (c : ascii) : bool :=
  let n := N_of_ascii c in
  ((128 <=? n) && (n <? 192))%N.

(** The code points of a str, each as its UTF-8 bytes: a byte starts a
    new code point unless it is a continuation byte. *)
Fixpoint code_points (s : string) : list string :=
  match s with
  | EmptyString => []
  | String c r =>
      let rest := code_points r in
      match r with
      | String c' _ =>
          if is_continuation c'
          then match rest with
               | g :: gs => String c g :: gs
               | [] => [String c EmptyString]
               end
          else String c EmptyString :: rest
      | EmptyString => String c EmptyString :: rest
      end
  end.

(** The characters of a str, as Python iterates and indexes them: one
    one-character str per code point. *)
Definition chars (s : string) : list pyval := map PStr (code_points s).

(** [v[i]] for an integer index [i]. *)
Definition getitem_int (v : pyval) (i : Z) : outcome pyval :=
  match v with
  | PList l => py_index l i
  | PStr s => py_index (chars s) i
  | PDict _ => Raise KeyError
  | _ => Raise TypeError
  end.

(** The elements a [for] loop or a comprehension draws from [v]. *)
Definition py_iter (v : pyval) : outcome (list pyval) :=
  match v with
  | PList l => Ok l
  | PDict d => Ok (map (fun kv => PStr (fst kv)) d)
  | PStr s => Ok (chars s)
  | _ => Raise TypeError
  end.

(** [v.values()]. *)
Definition py_values (v : pyval) : outcome (list pyval) :=
  match v with
  | PDict d => Ok (map snd d)
  | _ => Raise AttributeError
  end.

(** [v == s] for a string literal [s]. *)
Definition py_eq_str (v : pyval) (s : string) : bool :=
  match v with
  | PStr t => String.eqb t s
  | _ => false
  end.

(** [a + b]. *)
Definition py_add (a b : pyval) : outcome pyval :=
  match a, b with
  | PInt x, PInt y => Ok (PInt (x + y))
  | PInt x, PBool y => Ok (PInt (x + Z.b2z y))
  | PBool x, PInt y => Ok (PInt (Z.b2z x + y))
  | PBool x, PBool y => Ok (PInt (Z.b2z x + Z.b2z y))
  | PStr x, PStr y => Ok (PStr (x ++ y))
  | PList x, PList y => Ok (PList (x ++ y))
  | _, _ => Raise TypeError
  end.

(** [d.get(k)] on a dict constant with string keys, for an arbitrary key
    [k]: a list or a dict is unhashable, any other non-string is simply
    not among the keys. *)
Definition dict_get_key (d : list (string * pyval)) (k : pyval) : outcome pyval :=
  match k with
  | PStr s =>
      match dict_lookup s d with
      | Some x => Ok x
      | None => Ok PNone
      end
  | PList _ | PDict _ => Raise TypeError
  | _ => Ok PNone
  end.

(** ** Strings *)

(** [s.split(sep, maxsplit)] for a one-character separator; [limit = None]
    is Python's default [maxsplit = -1]. *)
Fixpoint str_split (sep : ascii) (limit : option nat) (s : string) {struct s}
  : list string :=
  match limit with
  | Some O => [s]
  | _ =>
      match s with
      | EmptyString => [EmptyString]
      | String c r =>
          if Ascii.eqb c sep
          then EmptyString :: str_split sep (option_map pred limit) r
          else match str_split sep limit r with
               | h :: t => String c h :: t
               | [] => [String c EmptyString]
               end
      end
  end.

(** [sep in s] for a one-character [sep]. *)
Fixpoint str_contains (sep : ascii) (s : string) : bool :=
  match s with
  | EmptyString => false
  | String c r => Ascii.eqb c sep || str_contains sep r
  end.

(** [v.split(sep, maxsplit)]: only a str has the method. *)
Definition py_split (v : pyval) (sep : ascii) (limit : option nat)
  : outcome (list string) :=
  match v with
  | PStr s => Ok (str_split sep limit s)
  | _ => Raise AttributeError
  end.

(** ["c" in v] for a one-character string literal. *)
Definition py_in (sep : ascii) (v : pyval) : outcome bool :=
  match v with
  | PStr s => Ok (str_contains sep s)
  | PList l => Ok (existsb (fun x => py_eq_str x (String sep EmptyString)) l)
  | PDict d => Ok (existsb (fun kv => String.eqb (fst kv) (String sep EmptyString)) d)
  | _ => Raise TypeError
  end.

(** ** Mutating operations

    The objects the hooks below mutate are trees of JSON data: no list or
    dict is reachable under two keys at once, so an in-place update is the
    update of the value at its one place. *)

(** [v.append(x)]: only a list has the method. *)
Definition py_append (v x : pyval) : outcome pyval :=
  match v with
  | PList l => Ok (PList (l ++ [x]))
  | _ => Raise AttributeError
  end.

(** [v.setdefault(k, default)], for its effect on [v]. *)
Definition py_setdefault (v : pyval) (k : string) (default : pyval)
  : outcome pyval :=
  match v with
  | PDict d =>
      match dict_lookup k d with
      | Some _ => Ok v
      | None => Ok (PDict (dict_set k default d))
      end
  | _ => Raise AttributeError
  end.

(** [v[k1][k2] = x]: the inner object is looked up, updated, and is still
    what [v] holds under [k1]. *)
Definition setitem_in (v : pyval) (k1 k2 : string) (x : pyval) : outcome pyval :=
  inner <- getitem v k1 ;;
  inner <- setitem inner k2 x ;;
  setitem v k1 inner.

(** [v.items()]. *)
Definition py_items (v : pyval) : outcome (list (string * pyval)) :=
  match v with
  | PDict d => Ok d
  | _ => Raise AttributeError
  end.

(** ** [legacyjson.MetadataSchema] *)

Module MetadataSchema.

Section Collaborators.

(** [str(v)], which an f-string applies to each interpolated value. *)
Variable py_str : pyval -> string.

(** [current_service_registry.get("awards").read(system_identity, aid).to_dict()]
    and the same for ["funders"]: external services, which may raise. *)
Variable a_service_read : pyval -> outcome pyval.
Variable f_service_read : pyval -> outcome pyval.

(** [self._award] and [self._funder], inherited from
    [common.MetadataSchema]; they build a new dict from their argument
    and may raise. *)
Variable _award : pyval -> outcome pyval.
Variable _funder : pyval -> outcome pyval.

(** The table [zenodo_legacy.funders.FUNDER_ROR_TO_DOI]. *)
Variable FUNDER_ROR_TO_DOI : list (string * pyval).

(** The [try ... except (PIDDeletedError, PIDDoesNotExistError)] around
    the award read: [None] stands for the handler's [return missing]. *)
Definition read_award (award aid : pyval) : outcome (option pyval) :=
  if truthy aid then
    match a_service_read aid with
    | Ok a => Ok (Some a)
    | Raise PIDDeletedError => Ok None
    | Raise PIDDoesNotExistError => Ok None
    | Raise e => Raise e
    end
  else Ok (Some award).

(** The body of [for funding_item in funding], from the award read on:
    the grant it appends to [ret]. *)
Definition serialize_grant (award : pyval) : outcome pyval :=
  award_funder <- getitem award "funder" ;;
  fid <- getitem award_funder "id" ;;
  funder <- f_service_read fid ;;
  legacy_grant <- _award award ;;
  legacy_funder <- _funder funder ;;
  _ <- setitem legacy_grant "funder" legacy_funder ;;
  award_number <- getitem award "number" ;;
  funder_id <- getitem funder "id" ;;
  funder_doi <- dict_get_key FUNDER_ROR_TO_DOI funder_id ;;
  Ok (PDict [("id", PStr (py_str funder_doi ++ "::" ++ py_str award_number))]).

(** The loop of [dump_grants]; [ret] is the list built so far. *)
Fixpoint dump_grants_loop (funding ret : list pyval) : outcome pyval :=
  match funding with
  | [] => Ok (PList ret)
  | funding_item :: rest =>
      award <- py_get funding_item "award" PNone ;;
      aid <- py_get award "id" PNone ;;
      read <- read_award award aid ;;
      match read with
      | None => Ok PMissing
      | Some award =>
          serialized_grant <- serialize_grant award ;;
          dump_grants_loop rest (ret ++ [serialized_grant])
      end
  end.

Definition dump_grants (obj : pyval) : outcome pyval :=
  funding <- py_get obj "funding" PNone ;;
  if negb (truthy funding) then Ok PMissing
  else
    items <- py_iter funding ;;
    dump_grants_loop items [].

End Collaborators.

(** [@post_dump(pass_original=True)]: [result] is the dumped dict, which
    the hook updates and returns. *)
Definition dump_resource_type (result original : pyval) : outcome pyval :=
  resource_type <- py_get original "resource_type" (PDict []) ;;
  resource_type_id <- py_get resource_type "id" PNone ;;
  if truthy resource_type_id then
    parts <- py_split resource_type_id "-"%char None ;;
    upload_type <- py_index parts 0 ;;
    result <- setitem result "upload_type" (PStr upload_type) ;;
    has_dash <- py_in "-"%char resource_type_id ;;
    if (has_dash : bool) then
      parts <- py_split resource_type_id "-"%char None ;;
      subtype <- py_index parts (-1) ;;
      setitem result (upload_type ++ "_type") (PStr subtype)
    else Ok result
  else Ok result.

Definition dump_communities (obj : pyval) : outcome pyval :=
  community_slugs <- py_get obj "_communities" (PList []) ;;
  if truthy community_slugs then
    slugs <- py_iter community_slugs ;;
    Ok (PList (map (fun c => PDict [("identifier", c)]) slugs))
  else Ok PMissing.

(** The loop of [hook_alternate_identifiers]: [related_identifiers] is
    the list being appended to. *)
Fixpoint hook_alternate_identifiers_loop
         (alternate_identifiers : list pyval) (related_identifiers : pyval)
  : outcome pyval :=
  match alternate_identifiers with
  | [] => Ok related_identifiers
  | identifier :: rest =>
      value <- getitem identifier "identifier" ;;
      let related_identifier :=
        PDict [("relation_type", PDict [("id", PStr "isAlternateIdentifier")]);
               ("identifier", value)] in
      related_identifiers <- py_append related_identifiers related_identifier ;;
      hook_alternate_identifiers_loop rest related_identifiers
  end.

(** [@pre_dump]: the hook updates [data] and returns it. *)
Definition hook_alternate_identifiers (data : pyval) : outcome pyval :=
  alternate_identifiers <- py_get data "identifiers" (PList []) ;;
  related_identifiers <- py_get data "related_identifiers" (PList []) ;;
  identifiers <- py_iter alternate_identifiers ;;
  related_identifiers <-
    hook_alternate_identifiers_loop identifiers related_identifiers ;;
  if truthy related_identifiers then
    setitem data "related_identifiers" related_identifiers
  else Ok data.

End MetadataSchema.

(** ** [legacyjson.LegacySchema] *)

Module LegacySchema.

Section Formatting.

Variable py_str : pyval -> string.

(** One iteration of the loop of [dump_files]: the dict appended to
    [result] for the file entry [f]. *)
Definition dump_file (bucket_url files_url f : pyval) : outcome pyval :=
  f_id <- getitem f "id" ;;
  let links := [("self", PStr (py_str files_url ++ "/" ++ py_str f_id))] in
  links <-
    (if truthy bucket_url then
       f_key <- getitem f "key" ;;
       Ok (dict_set "download"
             (PStr (py_str bucket_url ++ "/" ++ py_str f_key)) links)
     else Ok links) ;;
  id <- getitem f "id" ;;
  filename <- getitem f "key" ;;
  filesize <- getitem f "size" ;;
  checksum <- getitem f "checksum" ;;
  parts <- py_split checksum ":"%char (Some 1%nat) ;;
  digest <- py_index parts 1 ;;
  Ok (PDict [("id", id); ("filename", filename); ("filesize", filesize);
             ("checksum", PStr digest); ("links", PDict links)]).

Fixpoint dump_files_loop (bucket_url files_url : pyval)
         (entries result : list pyval) : outcome (list pyval) :=
  match entries with
  | [] => Ok result
  | f :: rest =>
      r <- dump_file bucket_url files_url f ;;
      dump_files_loop bucket_url files_url rest (result ++ [r])
  end.

Definition dump_files (obj : pyval) : outcome pyval :=
  links <- getitem obj "links" ;;
  bucket_url <- py_get links "bucket" PNone ;;
  links <- getitem obj "links" ;;
  files_url <- getitem links "files" ;;
  files <- getitem obj "files" ;;
  entries <- getitem files "entries" ;;
  values <- py_values entries ;;
  result <- dump_files_loop bucket_url files_url values [] ;;
  Ok (if truthy (PList result) then PList result else PMissing).

End Formatting.

Definition dump_state (obj : pyval) : outcome pyval :=
  let state := "unsubmitted" in
  is_published <- getitem obj "is_published" ;;
  if truthy is_published then
    let state := "done" in
    is_draft <- getitem obj "is_draft" ;;
    if truthy is_draft then
      let state := "inprogress" in
      Ok (PStr state)
    else Ok (PStr state)
  else Ok (PStr state).

Definition dump_owner (obj : pyval) : outcome pyval :=
  parent <- getitem obj "parent" ;;
  access <- getitem parent "access" ;;
  owned_by <- getitem access "owned_by" ;;
  getitem owned_by "user".

(** [@pre_dump]: the hook updates [data] and returns it. *)
Definition hook_metadata (data : pyval) : outcome pyval :=
  data <- py_setdefault data "metadata" (PDict []) ;;
  custom_fields <- py_get data "custom_fields" PNone ;;
  data <- setitem_in data "metadata" "custom_fields" custom_fields ;;
  access <- getitem data "access" ;;
  data <- setitem_in data "metadata" "access" access ;;
  pids <- py_get data "pids" PNone ;;
  data <- setitem_in data "metadata" "pids" pids ;;
  parent <- py_get data "parent" PNone ;;
  data <- setitem_in data "metadata" "parent" parent ;;
  Ok data.

End LegacySchema.

(** ** [records.ZenodoRecordEntry] *)

Module ZenodoRecordEntry.

Definition _index (entry : pyval) : outcome pyval :=
  index <- py_get entry "index" (PInt 0) ;;
  py_add index (PInt 1).

Definition _files (entry : pyval) : outcome pyval :=
  Ok (PDict [("enabled", PBool true)]).

Definition _access (entry : pyval) : outcome pyval :=
  record <- getitem entry "json" ;;
  access_right <- getitem record "access_right" ;;
  let is_open := py_eq_str access_right "open" in
  let r := [("record", PStr "public");
            ("files", PStr (if is_open then "public" else "restricted"))] in
  access_right <- getitem record "access_right" ;;
  if py_eq_str access_right "embargoed" then
    embargo_date <- getitem record "embargo_date" ;;
    Ok (PDict (dict_set "embargo"
                 (PDict [("until", embargo_date); ("active", PBool true)]) r))
  else Ok (PDict r).

Definition _created (entry : pyval) : outcome pyval := getitem entry "created".

Definition _updated (entry : pyval) : outcome pyval := getitem entry "updated".

Definition _version_id (entry : pyval) : outcome pyval :=
  getitem entry "version_id".

Definition _pids (entry : pyval) : outcome pyval :=
  record <- getitem entry "json" ;;
  oai <- getitem record "_oai" ;;
  oai_id <- getitem oai "id" ;;
  let r := [("oai", PDict [("provider", PStr "oai"); ("identifier", oai_id)])] in
  doi <- py_get record "doi" PNone ;;
  if truthy doi then
    doi <- getitem record "doi" ;;
    Ok (PDict (dict_set "doi"
                 (PDict [("client", PStr "datacite");
                         ("provider", PStr "datacite");
                         ("identifier", doi)]) r))
  else Ok (PDict r).

(** What [_metadata] reads of a [nameparser.HumanName]. *)
Record human_name : Type := { first : string; surnames : string }.

Section Metadata.

Variable py_str : pyval -> string.

(** [HumanName(v)], an external parser, which may raise. *)
Variable HumanName : pyval -> outcome human_name.

Definition _recid (entry : pyval) : outcome pyval :=
  json <- getitem entry "json" ;;
  recid <- getitem json "recid" ;;
  Ok (PStr (py_str recid)).

(** The body of the loop of [_creators], a function local to [_metadata]:
    the dict appended to [ret] for the creator [c]. *)
Definition _creator (c : pyval) : outcome pyval :=
  let r := PDict [("person_or_org", PDict [("type", PStr "personal")])] in
  affiliation <- py_get c "affiliation" PNone ;;
  r <- (if truthy affiliation then
          affiliation <- getitem c "affiliation" ;;
          setitem r "affiliations" (PList [PDict [("name", affiliation)]])
        else Ok r) ;;
  orcid <- py_get c "orcid" PNone ;;
  r <- (if truthy orcid then
          orcid <- getitem c "orcid" ;;
          setitem_in r "person_or_org" "identifiers"
            (PList [PDict [("scheme", PStr "orcid"); ("identifier", orcid)]])
        else Ok r) ;;
  c_name <- getitem c "name" ;;
  name <- HumanName c_name ;;
  r <- setitem_in r "person_or_org" "given_name" (PStr (first name)) ;;
  r <- setitem_in r "person_or_org" "family_name" (PStr (surnames name)) ;;
  setitem_in r "person_or_org" "name"
    (PStr (surnames name ++ ", " ++ first name)).

Fixpoint _creators_loop (data ret : list pyval) : outcome (list pyval) :=
  match data with
  | [] => Ok ret
  | c :: rest =>
      r <- _creator c ;;
      _creators_loop rest (ret ++ [r])
  end.

Definition _creators (data : pyval) : outcome pyval :=
  cs <- py_iter data ;;
  ret <- _creators_loop cs [] ;;
  Ok (PList ret).

(** [_resource_type], a function local to [_metadata]. *)
Definition _resource_type (data : pyval) : outcome pyval :=
  t <- getitem data "type" ;;
  st <- py_get data "subtype" PNone ;;
  if truthy st then Ok (PDict [("id", PStr (py_str t ++ "-" ++ py_str st))])
  else Ok (PDict [("id", t)]).

Definition _metadata (entry : pyval) : outcome pyval :=
  record <- getitem entry "json" ;;
  title <- getitem record "title" ;;
  description <- getitem record "description" ;;
  publication_date <- getitem record "publication_date" ;;
  resource_type <- getitem record "resource_type" ;;
  resource_type <- _resource_type resource_type ;;
  creators <- getitem record "creators" ;;
  creators <- _creators creators ;;
  Ok (PDict [("title", title);
             ("description", description);
             ("publication_date", publication_date);
             ("resource_type", resource_type);
             ("creators", creators)]).

End Metadata.

End ZenodoRecordEntry.

(** ** [records.ZenodoRecordTransform] *)

Module ZenodoRecordTransform.

Definition _community_id (entry : pyval) : outcome pyval :=
  json <- getitem entry "json" ;;
  communities <- py_get json "communities" PNone ;;
  if truthy communities then
    slug <- getitem_int communities 0 ;;
    if truthy slug then
      Ok (PDict [("ids", PList [slug]); ("default", slug)])
    else Ok (PDict [])
  else Ok (PDict []).

Definition _parent (entry : pyval) : outcome pyval :=
  created <- getitem entry "created" ;;
  updated <- getitem entry "updated" ;;
  version_id <- getitem entry "version_id" ;;
  json <- getitem entry "json" ;;
  id <- getitem json "conceptrecid" ;;
  json <- getitem entry "json" ;;
  owners <- py_get json "owners" (PList []) ;;
  owners <- py_iter owners ;;
  let owned_by := map (fun o => PDict [("user", o)]) owners in
  communities <- _community_id entry ;;
  Ok (PDict [("created", created);
             ("updated", updated);
             ("version_id", version_id);
             ("json", PDict [("id", id);
                             ("access", PDict [("owned_by", PList owned_by)]);
                             ("communities", communities)])]).

Definition _draft (entry : pyval) : outcome pyval := Ok PNone.

Definition _draft_files (entry : pyval) : outcome pyval := Ok PNone.

(** The element of the comprehension of [_record_files] for the file [f]. *)
Definition _record_file (f : pyval) : outcome pyval :=
  key <- getitem f "key" ;;
  size <- getitem f "size" ;;
  checksum <- getitem f "checksum" ;;
  Ok (PDict [("key", key);
             ("object_version",
              PDict [("file", PDict [("size", size); ("checksum", checksum)])])]).

Fixpoint _record_files_loop (files : list pyval) : outcome (list pyval) :=
  match files with
  | [] => Ok []
  | f :: rest =>
      r <- _record_file f ;;
      rs <- _record_files_loop rest ;;
      Ok (r :: rs)
  end.

Definition _record_files (entry : pyval) : outcome pyval :=
  json <- getitem entry "json" ;;
  files <- py_get json "_files" (PList []) ;;
  files <- py_iter files ;;
  rs <- _record_files_loop files ;;
  Ok (PList rs).

End ZenodoRecordTransform.

(** ** [views.create_blueprint] *)

Module Views.

(** What [handle_validation_errors] reads of the exception it is given:
    the [messages] of a [marshmallow.ValidationError], or, for any other
    exception, the outcome of reading its [message] attribute. *)
Inductive exception : Type :=
| ValidationError (messages : pyval)
| OtherException (message : outcome pyval).

Fixpoint handle_validation_errors_loop
         (items : list (string * pyval)) (deserialized : list pyval) : list pyval :=
  match items with
  | [] => deserialized
  | error_tuple :: rest =>
      let (field, value) := error_tuple in
      handle_validation_errors_loop rest
        (deserialized ++ [PDict [("field", PStr field); ("messages", value)]])
  end.

(** The error handler, with the pair (body, status) it returns. *)
Definition handle_validation_errors (e : exception) : outcome (pyval * Z) :=
  match e with
  | ValidationError dic =>
      items <- py_items dic ;;
      let deserialized := handle_validation_errors_loop items [] in
      Ok (PDict [("errors", PList deserialized)], 400)
  | OtherException message =>
      message <- message ;;
      Ok (message, 400)
  end.

End Views.

(** ** Sample data

    A rendering of [str()] and small records, services and tables at which
    the properties below are instantiated. *)

Module Sample.

Local Open Scope string_scope.

Definition str_of_Z (z : Z) : string := NilZero.string_of_int (Z.to_int z).

Definition hex_digit (n : N) : ascii :=
  ascii_of_N (if (n <? 10)%N then 48 + n else 87 + n).

(** [repr(s)] for a str: single quotes unless [s] has a single and no
    double quote; the quote, the backslash and the control characters are
    escaped.  Bytes above 127 are copied, as Python copies printable
    non-ASCII characters. *)
Definition repr_char (quote c : ascii) : string :=
  let n := N_of_ascii c in
  if Ascii.eqb c quote || Ascii.eqb c "\"%char then String "\"%char (String c "")
  else if (n =? 9)%N then "\t"
  else if (n =? 10)%N then "\n"
  else if (n =? 13)%N then "\r"
  else if (n <? 32)%N || (n =? 127)%N
       then "\x" ++ String (hex_digit (n / 16)) (String (hex_digit (n mod 16)) "")
  else String c "".

Fixpoint repr_chars (quote : ascii) (s : string) : string :=
  match s with
  | EmptyString => ""
  | String c r => repr_char quote c ++ repr_chars quote r
  end.

Definition double_quote : ascii := ascii_of_nat 34.

Definition repr_str (s : string) : string :=
  let quote :=
    if str_contains "'"%char s && negb (str_contains double_quote s)
    then double_quote else "'"%char in
  String quote (repr_chars quote s ++ String quote "").

(** [repr(v)]. *)
Fixpoint py_repr (v : pyval) : string :=
  match v with
  | PNone => "None"
  | PBool true => "True"
  | PBool false => "False"
  | PInt z => str_of_Z z
  | PStr s => repr_str s
  | PList l =>
      "[" ++ (fix items (l : list pyval) : string :=
                match l with
                | [] => ""
                | x :: r =>
                    match r with
                    | [] => py_repr x
                    | _ => py_repr x ++ ", " ++ items r
                    end
                end) l ++ "]"
  | PDict d =>
      "{" ++ (fix items (d : list (string * pyval)) : string :=
                match d with
                | [] => ""
                | (k, x) :: r =>
                    match r with
                    | [] => repr_str k ++ ": " ++ py_repr x
                    | _ => repr_str k ++ ": " ++ py_repr x ++ ", " ++ items r
                    end
                end) d ++ "}"
  | PMissing => "<marshmallow.missing>"
  end.

(** [str(v)]: a str is itself, anything else is its [repr]. *)
Definition py_str (v : pyval) : string :=
  match v with
  | PStr s => s
  | _ => py_repr v
  end.

(** A funders vocabulary with one funder and an awards vocabulary with
    one award of that funder; every other id does not exist. *)
Definition f_service_read (fid : pyval) : outcome pyval :=
  if py_eq_str fid "00k4n6c32"
  then Ok (PDict [("id", PStr "00k4n6c32"); ("name", PStr "European Commission")])
  else Raise PIDDoesNotExistError.

Definition a_service_read (aid : pyval) : outcome pyval :=
  if py_eq_str aid "00k4n6c32::101004761"
  then Ok (PDict [("id", PStr "00k4n6c32::101004761");
                  ("number", PStr "101004761");
                  ("funder", PDict [("id", PStr "00k4n6c32")])])
  else Raise PIDDoesNotExistError.

Definition _award (award : pyval) : outcome pyval :=
  number <- getitem award "number" ;;
  Ok (PDict [("code", number)]).

Definition _funder (funder : pyval) : outcome pyval :=
  name <- getitem funder "name" ;;
  Ok (PDict [("name", name)]).

Definition FUNDER_ROR_TO_DOI : list (string * pyval) :=
  [("00k4n6c32", PStr "10.13039/501100000780")].

(** A funding item whose award is in the vocabulary, with a funder of
    its own that differs from the award's, and one whose award is not. *)
Definition funded : pyval :=
  PDict [("funder", PDict [("id", PStr "021nxhr62")]);
         ("award", PDict [("id", PStr "00k4n6c32::101004761")])].

Definition unknown_award : pyval :=
  PDict [("funder", PDict [("id", PStr "00k4n6c32")]);
         ("award", PDict [("id", PStr "00k4n6c32::000000000")])].

Definition file_entry : pyval :=
  PDict [("id", PStr "f1"); ("key", PStr "data.csv"); ("size", PInt 12);
         ("checksum", PStr "md5:0123:abcd")].

Definition published_record : pyval :=
  PDict [("is_published", PBool true); ("is_draft", PBool false);
         ("links", PDict [("files", PStr "/api/records/1/files");
                          ("bucket", PStr "/api/files/b1")]);
         ("files", PDict [("entries", PDict [("data.csv", file_entry)])])].

(** Record metadata with a three-segment resource type. *)
Definition metadata : pyval :=
  PDict [("title", PStr "A thesis");
         ("resource_type", PDict [("id", PStr "publication-thesis-phd")]);
         ("funding", PList [funded])].

Definition legacy_entry : pyval :=
  PDict [("created", PStr "2020-01-01"); ("updated", PStr "2020-02-02");
         ("version_id", PInt 3); ("index", PInt 4);
         ("json", PDict [("conceptrecid", PStr "1234");
                         ("recid", PInt 1235);
                         ("owners", PList [PInt 7; PInt 9]);
                         ("communities", PList [PStr "zenodo"; PStr "ecfunded"]);
                         ("access_right", PStr "embargoed");
                         ("embargo_date", PStr "2030-01-01")])].

(** A record, without a bucket, whose second file has a checksum with no
    algorithm prefix. *)
Definition bare_file : pyval :=
  PDict [("id", PStr "f2"); ("key", PStr "raw.bin"); ("size", PInt 3);
         ("checksum", PStr "0123abcd")].

Definition bare_checksum_record : pyval :=
  PDict [("links", PDict [("files", PStr "/api/records/1/files")]);
         ("files", PDict [("entries", PDict [("data.csv", file_entry);
                                             ("raw.bin", bare_file)])])].

(** Funding without an award, and funding whose award is not from the
    vocabulary and names a funder the funders vocabulary does not have. *)
Definition funder_only : list (string * pyval) :=
  [("funder", PDict [("id", PStr "00k4n6c32")])].

Definition custom_award : pyval :=
  PDict [("funder", PDict [("id", PStr "00k4n6c32")]);
         ("award", PDict [("title", PDict [("en", PStr "A grant")]);
                          ("number", PStr "X-1");
                          ("funder", PDict [("id", PStr "05wwcw481")])])].

(** A name parser that knows one name. *)
Definition HumanName (v : pyval) : outcome ZenodoRecordEntry.human_name :=
  if py_eq_str v "Doe, Jane"
  then Ok {| ZenodoRecordEntry.first := "Jane";
             ZenodoRecordEntry.surnames := "Doe" |}
  else Raise (OtherError "name not known").

(** A legacy record with all that the migration reads. *)
Definition legacy_record : pyval :=
  PDict [("created", PStr "2020-01-01"); ("updated", PStr "2020-02-02");
         ("version_id", PInt 3);
         ("json",
          PDict [("conceptrecid", PStr "1234");
                 ("recid", PInt 1235);
                 ("_oai", PDict [("id", PStr "oai:zenodo.org:1235")]);
                 ("doi", PStr "10.5281/zenodo.1235");
                 ("title", PStr "A dataset");
                 ("description", PStr "Numbers");
                 ("publication_date", PStr "2020-01-01");
                 ("resource_type",
                  PDict [("type", PStr "publication"); ("subtype", PStr "article")]);
                 ("creators",
                  PList [PDict [("name", PStr "Doe, Jane");
                                ("affiliation", PStr "CERN");
                                ("orcid", PStr "0000-0002-1825-0097")]]);
                 ("access_right", PStr "open");
                 ("_files",
                  PList [PDict [("key", PStr "data.csv"); ("size", PInt 12);
                                ("checksum", PStr "md5:0123")]])])].

(** Metadata with one alternate and one related identifier. *)
Definition identified_metadata : list (string * pyval) :=
  [("title", PStr "A dataset");
   ("identifiers",
    PList [PDict [("scheme", PStr "ark"); ("identifier", PStr "ark:/123")]]);
   ("related_identifiers",
    PList [PDict [("relation_type", PDict [("id", PStr "cites")]);
                  ("identifier", PStr "10.1234/foo")]])].

(** A record as the legacy schema receives it, before its hooks. *)
Definition api_record : list (string * pyval) :=
  [("id", PStr "1235");
   ("access", PDict [("record", PStr "public"); ("files", PStr "public")]);
   ("pids", PDict [("doi", PDict [("identifier", PStr "10.5281/zenodo.1235")])]);
   ("metadata", PDict [("title", PStr "A dataset")])].

End Sample.

(** * Vocabulary of the properties *)

(** ** Files *)

(** The fields of a file entry that [dump_files] reads; the stored
    checksum is [checksum_algorithm ++ ":" ++ checksum_digest], the
    algorithm being what precedes the first ':'. *)
Record stored_file : Type := {
  file_id : pyval;
  file_key : pyval;
  file_size : pyval;
  checksum_algorithm : string;
  checksum_digest : string
}.

Definition has_fields (f : pyval) (sf : stored_file) : Prop :=
  getitem f "id" = Ok (file_id sf) /\
  getitem f "key" = Ok (file_key sf) /\
  getitem f "size" = Ok (file_size sf) /\
  getitem f "checksum" =
    Ok (PStr (checksum_algorithm sf ++ ":" ++ checksum_digest sf)) /\
  str_contains ":" (checksum_algorithm sf) = false.

(** The legacy file entry expected for a stored file: the checksum
    without its algorithm prefix, and a ['download'] link exactly when
    the record has a bucket URL. *)
Definition legacy_file (py_str : pyval -> string)
           (bucket_url files_url : pyval) (sf : stored_file) : pyval :=
  PDict [("id", file_id sf);
         ("filename", file_key sf);
         ("filesize", file_size sf);
         ("checksum", PStr (checksum_digest sf));
         ("links",
          PDict (("self", PStr (py_str files_url ++ "/" ++ py_str (file_id sf)))
                 :: if truthy bucket_url
                    then [("download",
                           PStr (py_str bucket_url ++ "/" ++ py_str (file_key sf)))]
                    else []))].

(** ** Grants *)

Section Grants.

Variable py_str : pyval -> string.
Variable a_service_read : pyval -> outcome pyval.
Variable f_service_read : pyval -> outcome pyval.
Variable _award : pyval -> outcome pyval.
Variable _funder : pyval -> outcome pyval.
Variable FUNDER_ROR_TO_DOI : list (string * pyval).

(** One iteration of the loop of [dump_grants] on [funding_item] runs to
    its end and appends [grant]. *)
Definition iteration_appends (funding_item grant : pyval) : Prop :=
  exists award0 aid award,
    py_get funding_item "award" PNone = Ok award0 /\
    py_get award0 "id" PNone = Ok aid /\
    MetadataSchema.read_award a_service_read award0 aid = Ok (Some award) /\
    MetadataSchema.serialize_grant
      py_str f_service_read _award _funder FUNDER_ROR_TO_DOI award = Ok grant.

(** The award a funding item resolves to: the awards service's record
    for the id of the item's ['award'], or that ['award'] itself when it
    has no id. *)
Definition resolved_award (funding_item award : pyval) : Prop :=
  exists award0 aid,
    py_get funding_item "award" PNone = Ok award0 /\
    py_get award0 "id" PNone = Ok aid /\
    ((truthy aid = true /\ a_service_read aid = Ok award) \/
     (truthy aid = false /\ award = award0)).

(** The legacy grant of a funding item: [{"id": "<funder_doi>::<award_number>"}]
    with the number of the resolved award and the DOI that
    [FUNDER_ROR_TO_DOI] gives for the id in the resolved award's
    ['funder'], where that funder is in the funders vocabulary and the
    inherited helpers accept the award and the funder. *)
Definition legacy_grant (funding_item grant : pyval) : Prop :=
  exists award award_funder fid funder award_number funder_doi,
    resolved_award funding_item award /\
    getitem award "funder" = Ok award_funder /\
    getitem award_funder "id" = Ok fid /\
    f_service_read fid = Ok funder /\
    (exists legacy_grant legacy_funder updated,
       _award award = Ok legacy_grant /\
       _funder funder = Ok legacy_funder /\
       setitem legacy_grant "funder" legacy_funder = Ok updated) /\
    getitem award "number" = Ok award_number /\
    dict_get_key FUNDER_ROR_TO_DOI fid = Ok funder_doi /\
    grant = PDict [("id", PStr (py_str funder_doi ++ "::" ++ py_str award_number))].

End Grants.

(** ** Identifiers *)

(** The related identifier that stands for an alternate identifier. *)
Definition alternate_identifier (value : pyval) : pyval :=
  PDict [("relation_type", PDict [("id", PStr "isAlternateIdentifier")]);
         ("identifier", value)].

(** What [d.get(k, [])] is when it is a list: the key is absent, or
    holds the list [l]. *)
Definition list_at (k : string) (d : list (string * pyval)) (l : list pyval)
  : Prop :=
  dict_lookup k d = Some (PList l) \/ (dict_lookup k d = None /\ l = []).

(** [d.get(k)] as a value: [None] for a key that is not there. *)
Definition value_or_None (o : option pyval) : pyval :=
  match o with
  | Some v => v
  | None => PNone
  end.

(** * Properties *)

(** ** Basic facts about the built-in operations *)

Lemma py_eq_str_true (v : pyval) (s : string) :
  py_eq_str v s = true <-> v = PStr s.
Proof.
  destruct v; simpl; split; intro H; try discriminate.
  - apply String.eqb_eq in H. now subst.
  - injection H as ->. apply String.eqb_refl.
Qed.

Lemma py_eq_str_false (v : pyval) (s : string) :
  py_eq_str v s = false <-> v <> PStr s.
Proof.
  rewrite <- py_eq_str_true. destruct (py_eq_str v s); split; congruence.
Qed.

Lemma bind_Ok {A B : Type} (m : outcome A) (k : A -> outcome B) (a : A) :
  m = Ok a -> bind m k = k a.
Proof. intros ->. reflexivity. Qed.

Lemma bind_Ok_inv {A B : Type} (m : outcome A) (k : A -> outcome B) (b : B) :
  bind m k = Ok b -> exists a, m = Ok a /\ k a = Ok b.
Proof. destruct m as [a|e]; simpl; [eauto | discriminate]. Qed.

(** ** [LegacySchema.dump_state] *)

(** C3: [dump_state] is decided by the truth values of [is_published] and
    [is_draft] alone: "unsubmitted" when [is_published] is false (whatever
    [is_draft] is, present or not), "inprogress" when both are true, and
    "done" when [is_published] is true and [is_draft] is false. *)
Theorem dump_state_three_values :
  forall obj is_published,
    getitem obj "is_published" = Ok is_published ->
    (truthy is_published = false ->
       LegacySchema.dump_state obj = Ok (PStr "unsubmitted")) /\
    (forall is_draft,
       getitem obj "is_draft" = Ok is_draft ->
       LegacySchema.dump_state obj =
         Ok (PStr (if truthy is_published
                   then if truthy is_draft then "inprogress" else "done"
                   else "unsubmitted"))).
Proof.
  intros obj p Hp. unfold LegacySchema.dump_state. rewrite Hp. simpl.
  split.
  - intros ->. reflexivity.
  - intros d Hd. destruct (truthy p); [| reflexivity].
    rewrite Hd. simpl. now destruct (truthy d).
Qed.

Lemma dump_state_three_values_witness :
  LegacySchema.dump_state Sample.published_record = Ok (PStr "done").
Proof.
  apply (proj2 (dump_state_three_values Sample.published_record (PBool true)
                  eq_refl) (PBool false)).
  reflexivity.
Defined.

(** ** [ZenodoRecordEntry] *)

(** C7: [_index] is the entry's ['index'] plus one, and 1 when the entry
    has no ['index'] key. *)
Theorem index_is_legacy_index_plus_one :
  forall entry : list (string * pyval),
    (forall i : Z,
       dict_lookup "index" entry = Some (PInt i) ->
       ZenodoRecordEntry._index (PDict entry) = Ok (PInt (i + 1))) /\
    (dict_lookup "index" entry = None ->
       ZenodoRecordEntry._index (PDict entry) = Ok (PInt 1)).
Proof.
  intro entry. unfold ZenodoRecordEntry._index. simpl.
  split; [intros i H | intros H]; rewrite H; reflexivity.
Qed.

Lemma index_is_legacy_index_plus_one_witness :
  ZenodoRecordEntry._index Sample.legacy_entry = Ok (PInt 5) /\
  ZenodoRecordEntry._index (PDict [("json", PDict [])]) = Ok (PInt 1).
Proof.
  split.
  - apply (proj1 (index_is_legacy_index_plus_one _) 4). reflexivity.
  - apply (proj2 (index_is_legacy_index_plus_one _)). reflexivity.
Defined.

(** C5: [_access] always gives the record visibility "public"; the files
    visibility is "public" exactly when [access_right] is "open" and
    "restricted" otherwise; and there is an ['embargo'] key exactly when
    [access_right] is "embargoed", holding the entry's [embargo_date] as
    ['until'] and [True] as ['active']. *)
Theorem access_from_access_right :
  forall entry record access_right,
    getitem entry "json" = Ok record ->
    getitem record "access_right" = Ok access_right ->
    (access_right = PStr "open" ->
       ZenodoRecordEntry._access entry =
         Ok (PDict [("record", PStr "public"); ("files", PStr "public")])) /\
    (access_right = PStr "embargoed" ->
       forall embargo_date,
         getitem record "embargo_date" = Ok embargo_date ->
         ZenodoRecordEntry._access entry =
           Ok (PDict [("record", PStr "public"); ("files", PStr "restricted");
                      ("embargo", PDict [("until", embargo_date);
                                         ("active", PBool true)])])) /\
    (access_right <> PStr "open" -> access_right <> PStr "embargoed" ->
       ZenodoRecordEntry._access entry =
         Ok (PDict [("record", PStr "public"); ("files", PStr "restricted")])).
Proof.
  intros entry record ar Hj Har. unfold ZenodoRecordEntry._access.
  rewrite Hj. simpl. rewrite Har. simpl.
  repeat split.
  - intros ->. reflexivity.
  - intros -> d Hd. simpl. rewrite Hd. reflexivity.
  - intros Ho He.
    apply py_eq_str_false in Ho, He. rewrite Ho, He. reflexivity.
Qed.

Lemma access_from_access_right_witness :
  ZenodoRecordEntry._access Sample.legacy_entry =
    Ok (PDict [("record", PStr "public"); ("files", PStr "restricted");
               ("embargo", PDict [("until", PStr "2030-01-01");
                                  ("active", PBool true)])]).
Proof.
  refine (proj1 (proj2 (access_from_access_right Sample.legacy_entry _
                          (PStr "embargoed") eq_refl eq_refl))
            eq_refl (PStr "2030-01-01") eq_refl).
Defined.

(** C10: the migration produces no draft and no draft files, and the
    record's files flag is the constant [{"enabled": True}], whatever
    the entry. *)
Theorem no_draft_and_files_enabled :
  forall entry,
    ZenodoRecordTransform._draft entry = Ok PNone /\
    ZenodoRecordTransform._draft_files entry = Ok PNone /\
    ZenodoRecordEntry._files entry = Ok (PDict [("enabled", PBool true)]).
Proof. intro entry. repeat split. Qed.

(** ** [ZenodoRecordTransform] *)

(** What [_community_id] returns for a [communities] value that is absent
    ([None]) or a list; shared by the properties of [_community_id] and
    [_parent]. *)
Lemma community_id_of_list :
  forall entry json communities,
    getitem entry "json" = Ok json ->
    py_get json "communities" PNone = Ok communities ->
    communities = PNone \/ (exists slugs, communities = PList slugs) ->
    ZenodoRecordTransform._community_id entry =
      Ok (match communities with
          | PList (slug :: _) =>
              if truthy slug
              then PDict [("ids", PList [slug]); ("default", slug)]
              else PDict []
          | _ => PDict []
          end).
Proof.
  intros entry json communities Hj Hc Hshape.
  unfold ZenodoRecordTransform._community_id.
  rewrite Hj. simpl. rewrite Hc. simpl.
  destruct Hshape as [-> | [slugs ->]]; [reflexivity |].
  destruct slugs as [| slug others]; [reflexivity |].
  simpl. unfold py_index. simpl.
  destruct (Z.of_nat (length others) + 1 <=? 0) eqn:E.
  - apply Z.leb_le in E. lia.
  - replace (Z.pos (Pos.of_succ_nat (length others)) <=? 0) with false
      by (symmetry; apply Z.leb_gt; lia).
    simpl. now destruct (truthy slug).
Qed.

(** C9: [_community_id] looks at the first element of the entry's
    ['communities'] list only: it returns [{"ids": [first], "default":
    first}] when the list is non-empty and its first element is truthy,
    and the empty dict otherwise (list absent, empty, or with a falsy
    first element); the slugs after the first never reach the result. *)
Theorem community_id_first_slug_only :
  forall entry json,
    getitem entry "json" = Ok json ->
    (forall first others,
       py_get json "communities" PNone = Ok (PList (first :: others)) ->
       ZenodoRecordTransform._community_id entry =
         Ok (if truthy first
             then PDict [("ids", PList [first]); ("default", first)]
             else PDict [])) /\
    (py_get json "communities" PNone = Ok (PList []) ->
       ZenodoRecordTransform._community_id entry = Ok (PDict [])) /\
    (py_get json "communities" PNone = Ok PNone ->
       ZenodoRecordTransform._community_id entry = Ok (PDict [])).
Proof.
  intros entry json Hj. repeat split.
  - intros first others Hc.
    rewrite (community_id_of_list entry json _ Hj Hc) by eauto.
    now destruct (truthy first).
  - intro Hc. now rewrite (community_id_of_list entry json _ Hj Hc) by eauto.
  - intro Hc. now rewrite (community_id_of_list entry json _ Hj Hc) by eauto.
Qed.

Lemma community_id_first_slug_only_witness :
  ZenodoRecordTransform._community_id Sample.legacy_entry =
    Ok (PDict [("ids", PList [PStr "zenodo"]); ("default", PStr "zenodo")]).
Proof.
  refine (proj1 (community_id_first_slug_only Sample.legacy_entry _ eq_refl)
            (PStr "zenodo") [PStr "ecfunded"] eq_refl).
Defined.

(** C6: [_parent] gives a parent whose json ['id'] is the entry's json
    ['conceptrecid'], whose ['created'], ['updated'] and ['version_id']
    are the entry's own, and whose [access.owned_by] has one
    [{"user": o}] per element [o] of the entry's json ['owners'] list, in
    order, and is empty when ['owners'] is absent. *)
Theorem parent_of_entry :
  forall entry created updated version_id json conceptrecid owners communities,
    getitem entry "created" = Ok created ->
    getitem entry "updated" = Ok updated ->
    getitem entry "version_id" = Ok version_id ->
    getitem entry "json" = Ok (PDict json) ->
    dict_lookup "conceptrecid" json = Some conceptrecid ->
    dict_lookup "owners" json = Some (PList owners) \/
      (dict_lookup "owners" json = None /\ owners = []) ->
    ZenodoRecordTransform._community_id entry = Ok communities ->
    ZenodoRecordTransform._parent entry =
      Ok (PDict
            [("created", created);
             ("updated", updated);
             ("version_id", version_id);
             ("json",
              PDict [("id", conceptrecid);
                     ("access",
                      PDict [("owned_by",
                              PList (map (fun o => PDict [("user", o)]) owners))]);
                     ("communities", communities)])]).
Proof.
  intros entry created updated version_id json conceptrecid owners communities
         Hc Hu Hv Hj Hid Ho Hcomm.
  unfold ZenodoRecordTransform._parent.
  rewrite Hc, Hu, Hv, Hj. simpl. rewrite Hid. simpl.
  destruct Ho as [Ho | [Ho ->]]; rewrite Ho; simpl; rewrite Hcomm; reflexivity.
Qed.

Lemma parent_of_entry_witness :
  ZenodoRecordTransform._parent Sample.legacy_entry =
    Ok (PDict
          [("created", PStr "2020-01-01");
           ("updated", PStr "2020-02-02");
           ("version_id", PInt 3);
           ("json",
            PDict [("id", PStr "1234");
                   ("access",
                    PDict [("owned_by",
                            PList [PDict [("user", PInt 7)];
                                   PDict [("user", PInt 9)]])]);
                   ("communities",
                    PDict [("ids", PList [PStr "zenodo"]);
                           ("default", PStr "zenodo")])])]).
Proof.
  refine (parent_of_entry Sample.legacy_entry _ _ _ _ _ [PInt 7; PInt 9] _
            eq_refl eq_refl eq_refl eq_refl eq_refl (or_introl eq_refl) eq_refl).
Defined.

(** ** [str.split] *)

Section Split.

Variable sep : ascii.

Lemma str_split_zero (s : string) : str_split sep (Some O) s = [s].
Proof. destruct s; reflexivity. Qed.

(** A string without the separator is its own single part. *)
Lemma str_split_no_sep (limit : option nat) (s : string) :
  str_contains sep s = false -> str_split sep limit s = [s].
Proof.
  induction s as [| c r IH]; intro H.
  - destruct limit as [[| n] |]; reflexivity.
  - simpl in H. apply orb_false_iff in H as [Hc Hr].
    destruct limit as [[| n] |]; simpl; try reflexivity;
      rewrite Hc, (IH Hr); reflexivity.
Qed.

(** The first part is what precedes the first separator. *)
Lemma str_split_at_first (limit : option nat) (p r : string) :
  limit <> Some O ->
  str_contains sep p = false ->
  str_split sep limit (p ++ String sep r) =
    p :: str_split sep (option_map pred limit) r.
Proof.
  intros Hl. induction p as [| c p IH]; intro H.
  - destruct limit as [[| n] |]; try congruence;
      simpl; rewrite Ascii.eqb_refl; reflexivity.
  - simpl in H. apply orb_false_iff in H as [Hc Hp].
    destruct limit as [[| n] |]; try congruence;
      simpl; rewrite Hc; simpl in IH; rewrite (IH Hp); reflexivity.
Qed.

(** The last part is what follows the last separator. *)
Lemma str_split_at_last (f q : string) :
  str_contains sep q = false ->
  exists h t, str_split sep None (f ++ String sep q) = h :: t ++ [q].
Proof.
  intro Hq. induction f as [| c f (h & t & IH)].
  - exists EmptyString, []. simpl.
    rewrite Ascii.eqb_refl, (str_split_no_sep None q Hq). reflexivity.
  - simpl. destruct (Ascii.eqb c sep).
    + exists EmptyString, (h :: t). rewrite IH. reflexivity.
    + exists (String c h), t. rewrite IH. reflexivity.
Qed.

(** A string with a separator has a first and a last one. *)
Lemma str_contains_first (s : string) :
  str_contains sep s = true ->
  exists p r, s = (p ++ String sep r)%string /\ str_contains sep p = false.
Proof.
  induction s as [| c s IH]; simpl; [discriminate |].
  destruct (Ascii.eqb c sep) eqn:E; simpl.
  - intros _. apply Ascii.eqb_eq in E as ->.
    exists EmptyString, s. split; reflexivity.
  - intro H. destruct (IH H) as (p & r & -> & Hp).
    exists (String c p), r. split; [reflexivity |].
    simpl. rewrite E, Hp. reflexivity.
Qed.

Lemma str_contains_last (s : string) :
  str_contains sep s = true ->
  exists f q, s = (f ++ String sep q)%string /\ str_contains sep q = false.
Proof.
  induction s as [| c s IH]; simpl; [discriminate |].
  destruct (str_contains sep s) eqn:Hs.
  - intros _. destruct (IH eq_refl) as (f & q & -> & Hq).
    exists (String c f), q. split; [reflexivity | exact Hq].
  - rewrite orb_false_r. intro E. apply Ascii.eqb_eq in E as ->.
    exists EmptyString, s. split; [reflexivity | exact Hs].
Qed.

Lemma str_contains_app (p r : string) :
  str_contains sep (p ++ String sep r) = true.
Proof.
  induction p as [| c p IH]; simpl.
  - rewrite Ascii.eqb_refl. reflexivity.
  - rewrite IH. apply orb_true_r.
Qed.

End Split.

Lemma py_index_nonneg {A : Type} (l : list A) (i : Z) (x : A) :
  0 <= i -> nth_error l (Z.to_nat i) = Some x -> py_index l i = Ok x.
Proof.
  intros Hi Hx. unfold py_index.
  assert (Hlen : (Z.to_nat i < length l)%nat)
    by (apply nth_error_Some; congruence).
  assert (E1 : (i <? 0) = false) by (apply Z.ltb_ge; lia).
  assert (E2 : (Z.of_nat (length l) <=? i) = false) by (apply Z.leb_gt; lia).
  rewrite E1. cbv beta iota zeta. rewrite E1, E2, Hx. reflexivity.
Qed.

Lemma py_index_first {A : Type} (x : A) (l : list A) : py_index (x :: l) 0 = Ok x.
Proof. apply py_index_nonneg; [lia | reflexivity]. Qed.

Lemma py_index_second {A : Type} (x y : A) (l : list A) :
  py_index (x :: y :: l) 1 = Ok y.
Proof. apply py_index_nonneg; [lia | reflexivity]. Qed.

Lemma py_index_last {A : Type} (l : list A) (x : A) :
  py_index (l ++ [x]) (-1) = Ok x.
Proof.
  unfold py_index. rewrite length_app. simpl length.
  change (-1 <? 0) with true. cbv beta iota zeta.
  replace (-1 + Z.of_nat (length l + 1)) with (Z.of_nat (length l)) by lia.
  assert (E1 : (Z.of_nat (length l) <? 0) = false) by (apply Z.ltb_ge; lia).
  assert (E2 : (Z.of_nat (length l + 1) <=? Z.of_nat (length l)) = false)
    by (apply Z.leb_gt; lia).
  rewrite E1, E2, Nat2Z.id, nth_error_app2, Nat.sub_diag by lia. reflexivity.
Qed.

(** ** [MetadataSchema.dump_resource_type] *)

(** The two assignments of [dump_resource_type], in order: for a
    non-empty [resource_type.id], ['upload_type'] gets the part of the id
    before its first '-' (the whole id when it has none) and, exactly
    when the id has a '-', [upload_type ++ "_type"] then gets the part
    after the last '-'; when the id is absent or empty the result is
    returned as it is. *)
Lemma dump_resource_type_assignments :
  forall original resource_type,
    py_get original "resource_type" (PDict []) = Ok resource_type ->
    (forall (result : list (string * pyval)) (id : string),
       py_get resource_type "id" PNone = Ok (PStr id) ->
       id <> "" ->
       exists upload_type,
         (str_contains "-" id = false /\ upload_type = id /\
          MetadataSchema.dump_resource_type (PDict result) original =
            Ok (PDict (dict_set "upload_type" (PStr upload_type) result)))
         \/
         (exists rest front subtype,
            id = (upload_type ++ "-" ++ rest)%string /\
            str_contains "-" upload_type = false /\
            id = (front ++ "-" ++ subtype)%string /\
            str_contains "-" subtype = false /\
            MetadataSchema.dump_resource_type (PDict result) original =
              Ok (PDict (dict_set (upload_type ++ "_type") (PStr subtype)
                           (dict_set "upload_type" (PStr upload_type) result)))))
    /\
    (forall result id,
       py_get resource_type "id" PNone = Ok id ->
       truthy id = false ->
       MetadataSchema.dump_resource_type result original = Ok result).
Proof.
  intros original resource_type Hrt.
  unfold MetadataSchema.dump_resource_type. rewrite Hrt. simpl. split.
  - intros result id Hid Hne. rewrite Hid. simpl.
    replace (String.eqb id "") with false
      by (symmetry; now apply String.eqb_neq).
    simpl. destruct (str_contains "-" id) eqn:Hdash.
    + destruct (str_contains_first _ _ Hdash) as (upload_type & rest & E1 & Hup).
      destruct (str_contains_last _ _ Hdash) as (front & subtype & E2 & Hsub).
      exists upload_type. right. exists rest, front, subtype.
      repeat split; try assumption.
      assert (Hparts : str_split "-" None id =
                         upload_type :: str_split "-" None rest)
        by (rewrite E1 at 1;
            now rewrite (str_split_at_first "-" None) by (congruence || assumption)).
      destruct (str_split_at_last "-" front subtype Hsub) as (h & t & Hlast).
      rewrite <- E2 in Hlast.
      rewrite Hparts, py_index_first. simpl.
      rewrite <- Hparts, Hlast.
      change (h :: t ++ [subtype]) with ((h :: t) ++ [subtype]).
      rewrite py_index_last. reflexivity.
    + exists id. left. repeat split.
      rewrite (str_split_no_sep "-" None id Hdash), py_index_first. reflexivity.
  - intros result id Hid Hfalsy. rewrite Hid. simpl. rewrite Hfalsy. reflexivity.
Qed.

Lemma dict_lookup_set_same (k : string) (v : pyval) (d : list (string * pyval)) :
  dict_lookup k (dict_set k v d) = Some v.
Proof.
  induction d as [| [k0 v0] d IH]; simpl.
  - now rewrite String.eqb_refl.
  - destruct (String.eqb k k0) eqn:E; simpl.
    + now rewrite String.eqb_refl.
    + now rewrite E.
Qed.

Lemma dict_lookup_set_other (k k' : string) (v : pyval) (d : list (string * pyval)) :
  k <> k' -> dict_lookup k (dict_set k' v d) = dict_lookup k d.
Proof.
  intro Hne. induction d as [| [k0 v0] d IH]; simpl.
  - now apply String.eqb_neq in Hne as ->.
  - destruct (String.eqb k' k0) eqn:E; simpl.
    + apply String.eqb_eq in E as <-.
      now apply String.eqb_neq in Hne as ->.
    + now rewrite IH.
Qed.

Lemma list_ascii_of_string_append (a b : string) :
  list_ascii_of_string (a ++ b) =
    list_ascii_of_string a ++ list_ascii_of_string b.
Proof. induction a as [| c a IH]; simpl; [reflexivity | now rewrite IH]. Qed.

Lemma append_cancel_r (a b suffix : string) :
  (a ++ suffix)%string = (b ++ suffix)%string -> a = b.
Proof.
  intro H. apply (f_equal list_ascii_of_string) in H.
  rewrite !list_ascii_of_string_append in H. apply app_inv_tail in H.
  rewrite <- (string_of_list_ascii_of_string a),
          <- (string_of_list_ascii_of_string b).
  now rewrite H.
Qed.

(** The field [upload_type ++ "_type"] is ['upload_type'] itself only
    for the upload type "upload". *)
Lemma type_field_is_upload_type (upload_type : string) :
  (upload_type ++ "_type")%string = "upload_type" -> upload_type = "upload".
Proof. intro H. now apply (append_cancel_r upload_type "upload" "_type"). Qed.

(** C4, with the one exception made explicit: for a non-empty
    [resource_type.id], the result of [dump_resource_type] differs from
    the dumped result in ['upload_type'] and, exactly when the id has a
    '-', in ['<upload_type>_type'] only, [upload_type] being the part of
    the id before its first '-' (the whole id when it has none).
    ['<upload_type>_type'] holds the part after the last '-', and
    ['upload_type'] holds [upload_type], except when [upload_type] is
    "upload" and the id has a '-': the two fields are then the same key,
    which holds the part after the last '-'.  When the id is absent or
    empty the result is returned as it is. *)
Theorem dump_resource_type_result_fields :
  forall original resource_type,
    py_get original "resource_type" (PDict []) = Ok resource_type ->
    (forall (result : list (string * pyval)) (id : string),
       py_get resource_type "id" PNone = Ok (PStr id) ->
       id <> "" ->
       exists upload_type result',
         MetadataSchema.dump_resource_type (PDict result) original =
           Ok (PDict result') /\
         ((str_contains "-" id = false /\ upload_type = id /\
           dict_lookup "upload_type" result' = Some (PStr upload_type) /\
           (forall k,
              k <> "upload_type" ->
              dict_lookup k result' = dict_lookup k result))
          \/
          (exists rest front subtype,
             id = (upload_type ++ "-" ++ rest)%string /\
             str_contains "-" upload_type = false /\
             id = (front ++ "-" ++ subtype)%string /\
             str_contains "-" subtype = false /\
             dict_lookup (upload_type ++ "_type") result' =
               Some (PStr subtype) /\
             (upload_type <> "upload" ->
                dict_lookup "upload_type" result' = Some (PStr upload_type)) /\
             (forall k,
                k <> "upload_type" ->
                k <> (upload_type ++ "_type")%string ->
                dict_lookup k result' = dict_lookup k result))))
    /\
    (forall result id,
       py_get resource_type "id" PNone = Ok id ->
       truthy id = false ->
       MetadataSchema.dump_resource_type result original = Ok result).
Proof.
  intros original resource_type Hrt.
  destruct (dump_resource_type_assignments original resource_type Hrt)
    as [Hset Hkeep].
  split; [| exact Hkeep].
  intros result id Hid Hne.
  destruct (Hset result id Hid Hne)
    as (upload_type & [(Hdash & -> & Hout)
                      | (rest & front & subtype & E1 & Hup & E2 & Hsub & Hout)]).
  - exists id, (dict_set "upload_type" (PStr id) result).
    split; [exact Hout |]. left. repeat split; auto.
    + apply dict_lookup_set_same.
    + intros k Hk. now apply dict_lookup_set_other.
  - exists upload_type,
           (dict_set (upload_type ++ "_type") (PStr subtype)
              (dict_set "upload_type" (PStr upload_type) result)).
    split; [exact Hout |]. right. exists rest, front, subtype.
    repeat split; auto.
    + apply dict_lookup_set_same.
    + intro Hupload. rewrite dict_lookup_set_other.
      * apply dict_lookup_set_same.
      * intro E. symmetry in E. now apply type_field_is_upload_type in E.
    + intros k Hk1 Hk2. now rewrite !dict_lookup_set_other.
Qed.

Lemma dump_resource_type_result_fields_witness :
  exists upload_type result',
    MetadataSchema.dump_resource_type (PDict [("title", PStr "A thesis")])
      Sample.metadata = Ok (PDict result') /\
    ((str_contains "-" "publication-thesis-phd" = false /\
      upload_type = "publication-thesis-phd" /\
      dict_lookup "upload_type" result' = Some (PStr upload_type) /\
      (forall k,
         k <> "upload_type" ->
         dict_lookup k result' = dict_lookup k [("title", PStr "A thesis")]))
     \/
     (exists rest front subtype,
        "publication-thesis-phd" = (upload_type ++ "-" ++ rest)%string /\
        str_contains "-" upload_type = false /\
        "publication-thesis-phd" = (front ++ "-" ++ subtype)%string /\
        str_contains "-" subtype = false /\
        dict_lookup (upload_type ++ "_type") result' = Some (PStr subtype) /\
        (upload_type <> "upload" ->
           dict_lookup "upload_type" result' = Some (PStr upload_type)) /\
        (forall k,
           k <> "upload_type" ->
           k <> (upload_type ++ "_type")%string ->
           dict_lookup k result' = dict_lookup k [("title", PStr "A thesis")]))).
Proof.
  apply (proj1 (dump_resource_type_result_fields Sample.metadata _ eq_refl)
           [("title", PStr "A thesis")]).
  - reflexivity.
  - discriminate.
Defined.

(** The id "upload-x" has the part "upload" before its first '-', and
    the result's ['upload_type'] is "x". *)
Lemma dump_resource_type_upload_counterexample :
  py_get (PDict [("resource_type", PDict [("id", PStr "upload-x")])])
         "resource_type" (PDict []) = Ok (PDict [("id", PStr "upload-x")]) /\
  "upload-x" = ("upload" ++ "-" ++ "x")%string /\
  str_contains "-" "upload" = false /\
  MetadataSchema.dump_resource_type (PDict [])
    (PDict [("resource_type", PDict [("id", PStr "upload-x")])]) =
    Ok (PDict [("upload_type", PStr "x")]).
Proof. repeat split. Qed.

(** ** [LegacySchema.dump_files] *)

Section Files.

Variable py_str : pyval -> string.

Lemma dump_file_legacy_file (bucket_url files_url f : pyval) (sf : stored_file) :
  has_fields f sf ->
  LegacySchema.dump_file py_str bucket_url files_url f =
    Ok (legacy_file py_str bucket_url files_url sf).
Proof.
  intros (Hid & Hkey & Hsize & Hsum & Halgo).
  unfold LegacySchema.dump_file, legacy_file.
  rewrite Hid. simpl.
  assert (Hparts :
            str_split ":" (Some 1%nat)
              (checksum_algorithm sf ++ String ":" (checksum_digest sf)) =
              [checksum_algorithm sf; checksum_digest sf]).
  { rewrite str_split_at_first by (congruence || assumption).
    simpl option_map. now rewrite str_split_zero. }
  destruct (truthy bucket_url); simpl;
    rewrite Hkey; simpl; rewrite Hsize; simpl; rewrite Hsum; simpl;
    rewrite Hparts, py_index_second; reflexivity.
Qed.

Lemma dump_files_loop_map (bucket_url files_url : pyval) :
  forall entries stored,
    Forall2 has_fields entries stored ->
    forall result,
      LegacySchema.dump_files_loop py_str bucket_url files_url entries result =
        Ok (result ++ map (legacy_file py_str bucket_url files_url) stored).
Proof.
  induction 1 as [| f sf entries stored Hf _ IH]; intro result; simpl.
  - now rewrite app_nil_r.
  - rewrite (dump_file_legacy_file _ _ _ _ Hf). simpl.
    rewrite IH, <- app_assoc. reflexivity.
Qed.

(** C8: [dump_files] serializes the file entries in order, each with its
    checksum stripped of everything up to and including the first ':',
    and with a ['download'] link exactly when the record's links have a
    (truthy) ['bucket'] URL; with no file entry it returns [missing]. *)
Theorem dump_files_entries :
  forall obj links bucket_url files_url files entries stored,
    getitem obj "links" = Ok links ->
    py_get links "bucket" PNone = Ok bucket_url ->
    getitem links "files" = Ok files_url ->
    getitem obj "files" = Ok files ->
    getitem files "entries" = Ok (PDict entries) ->
    Forall2 has_fields (map snd entries) stored ->
    LegacySchema.dump_files py_str obj =
      Ok (match entries with
          | [] => PMissing
          | _ => PList (map (legacy_file py_str bucket_url files_url) stored)
          end).
Proof.
  intros obj links bucket_url files_url files entries stored
         Hl Hb Hfu Hf He Hstored.
  unfold LegacySchema.dump_files.
  rewrite Hl. simpl. rewrite Hb. simpl. rewrite Hfu, Hf. simpl.
  rewrite He. simpl.
  rewrite (dump_files_loop_map _ _ _ _ Hstored). simpl.
  destruct entries as [| e entries]; inversion Hstored; subst; reflexivity.
Qed.

End Files.

Lemma dump_files_entries_witness :
  LegacySchema.dump_files Sample.py_str Sample.published_record =
    Ok (PList
          [PDict [("id", PStr "f1");
                  ("filename", PStr "data.csv");
                  ("filesize", PInt 12);
                  ("checksum", PStr "0123:abcd");
                  ("links",
                   PDict [("self", PStr "/api/records/1/files/f1");
                          ("download", PStr "/api/files/b1/data.csv")])]]).
Proof.
  refine (dump_files_entries Sample.py_str Sample.published_record
            _ (PStr "/api/files/b1") (PStr "/api/records/1/files") _
            [("data.csv", Sample.file_entry)]
            [{| file_id := PStr "f1"; file_key := PStr "data.csv";
                file_size := PInt 12; checksum_algorithm := "md5";
                checksum_digest := "0123:abcd" |}]
            eq_refl eq_refl eq_refl eq_refl eq_refl _).
  repeat constructor.
Defined.

(** ** [MetadataSchema.dump_grants] *)

Ltac bind_inv H x Hx :=
  apply bind_Ok_inv in H; destruct H as (x & Hx & H).

Section GrantsProperties.

Variable py_str : pyval -> string.
Variable a_service_read : pyval -> outcome pyval.
Variable f_service_read : pyval -> outcome pyval.
Variable _award : pyval -> outcome pyval.
Variable _funder : pyval -> outcome pyval.
Variable FUNDER_ROR_TO_DOI : list (string * pyval).

Local Abbreviation read_award := (MetadataSchema.read_award a_service_read).
Local Abbreviation serialize_grant :=
  (MetadataSchema.serialize_grant
     py_str f_service_read _award _funder FUNDER_ROR_TO_DOI).
Local Abbreviation dump_grants_loop :=
  (MetadataSchema.dump_grants_loop
     py_str a_service_read f_service_read _award _funder FUNDER_ROR_TO_DOI).
Local Abbreviation dump_grants :=
  (MetadataSchema.dump_grants
     py_str a_service_read f_service_read _award _funder FUNDER_ROR_TO_DOI).
Local Abbreviation iteration_appends :=
  (iteration_appends
     py_str a_service_read f_service_read _award _funder FUNDER_ROR_TO_DOI).
Local Abbreviation resolved_award := (resolved_award a_service_read).
Local Abbreviation legacy_grant :=
  (legacy_grant
     py_str a_service_read f_service_read _award _funder FUNDER_ROR_TO_DOI).

(** The award read continues with an award when the service returned
    one, or when there was no id to read. *)
Lemma read_award_Some (award0 aid award : pyval) :
  read_award award0 aid = Ok (Some award) <->
  (truthy aid = true /\ a_service_read aid = Ok award) \/
  (truthy aid = false /\ award = award0).
Proof.
  unfold MetadataSchema.read_award.
  destruct (truthy aid); [destruct (a_service_read aid) as [a | []] |];
    split; intro H;
    repeat match goal with
           | H : _ \/ _ |- _ => destruct H
           | H : _ /\ _ |- _ => destruct H
           end;
    try discriminate; try congruence; auto.
  - left. split; congruence.
  - right. split; congruence.
Qed.

(** The handler's [return missing] is reached exactly when a read was
    made and raised one of the two caught exceptions. *)
Lemma read_award_None (award0 aid : pyval) :
  read_award award0 aid = Ok None <->
  truthy aid = true /\
  (a_service_read aid = Raise PIDDeletedError \/
   a_service_read aid = Raise PIDDoesNotExistError).
Proof.
  unfold MetadataSchema.read_award.
  destruct (truthy aid); [destruct (a_service_read aid) as [a | []] |];
    split; intro H;
    repeat match goal with
           | H : _ \/ _ |- _ => destruct H
           | H : _ /\ _ |- _ => destruct H
           end;
    try discriminate; auto.
Qed.

(** The loop returns a list exactly when every iteration runs to its
    end; the list is [ret] followed by the appended grants, in order. *)
Lemma dump_grants_loop_list :
  forall funding ret out,
    dump_grants_loop funding ret = Ok (PList out) <->
    exists grants, Forall2 iteration_appends funding grants /\ out = ret ++ grants.
Proof.
  induction funding as [| item rest IH]; intros ret out; simpl.
  - split.
    + intros [= <-]. exists []. split; [constructor | now rewrite app_nil_r].
    + intros (grants & HF & ->). inversion HF. now rewrite app_nil_r.
  - split.
    + intro H.
      bind_inv H award0 H0. bind_inv H aid H1. bind_inv H read H2.
      destruct read as [award |]; [| discriminate].
      bind_inv H grant H3.
      apply IH in H as (grants & HF & ->).
      exists (grant :: grants). split.
      * constructor; [exists award0, aid, award; auto | exact HF].
      * now rewrite <- app_assoc.
    + intros (grants & HF & ->).
      inversion HF as [| ? grant ? grants'
                         (award0 & aid & award & H0 & H1 & H2 & H3) HF']; subst.
      rewrite H0. simpl. rewrite H1. simpl. rewrite H2. simpl.
      rewrite H3. simpl.
      apply IH. exists grants'. split; [exact HF' | now rewrite <- app_assoc].
Qed.

(** The loop returns [missing] exactly when, after some iterations that
    ran to their end, the award read of the next item raised one of the
    two caught exceptions. *)
Lemma dump_grants_loop_missing :
  forall funding ret,
    dump_grants_loop funding ret = Ok PMissing <->
    exists resolved grants item rest award aid,
      funding = resolved ++ item :: rest /\
      Forall2 iteration_appends resolved grants /\
      py_get item "award" PNone = Ok award /\
      py_get award "id" PNone = Ok aid /\
      truthy aid = true /\
      (a_service_read aid = Raise PIDDeletedError \/
       a_service_read aid = Raise PIDDoesNotExistError).
Proof.
  induction funding as [| item rest IH]; intros ret; simpl.
  - split; [discriminate |].
    intros (resolved & ? & ? & ? & ? & ? & E & _).
    now destruct resolved.
  - split.
    + intro H.
      bind_inv H award0 H0. bind_inv H aid H1. bind_inv H read H2.
      destruct read as [award |].
      * bind_inv H grant H3.
        apply IH in H
          as (resolved & grants & item' & rest' & award' & aid' & -> & HF & Hrest).
        exists (item :: resolved), (grant :: grants), item', rest', award', aid'.
        split; [reflexivity |]. split; [| exact Hrest].
        constructor; [exists award0, aid, award; auto | exact HF].
      * apply read_award_None in H2 as [Haid Hraise].
        exists [], [], item, rest, award0, aid.
        repeat split; auto.
    + intros (resolved & grants & item' & rest' & award' & aid' & E & HF & Hrest).
      destruct HF as [| item0 grant resolved grants
                        (award0 & aid & award & H0 & H1 & H2 & H3) HF].
      * injection E as <- <-.
        destruct Hrest as (H0 & H1 & Haid & Hraise).
        rewrite H0. simpl. rewrite H1. simpl.
        now rewrite (proj2 (read_award_None award' aid') (conj Haid Hraise)).
      * injection E as <- ->.
        rewrite H0. simpl. rewrite H1. simpl. rewrite H2. simpl.
        rewrite H3. simpl.
        apply IH. exists resolved, grants, item', rest', award', aid'. auto.
Qed.

(** A loop over strings (the keys of a dict, the characters of a str)
    never returns [missing]. *)
Lemma dump_grants_loop_strings (funding ret : list pyval) :
  Forall (fun item => exists s, item = PStr s) funding ->
  dump_grants_loop funding ret <> Ok PMissing.
Proof.
  intros [| item rest (s & ->) _]; simpl; discriminate.
Qed.

Lemma chars_are_strings (s : string) :
  Forall (fun item => exists s, item = PStr s) (chars s).
Proof.
  unfold chars. induction (code_points s); simpl; constructor; eauto.
Qed.

Lemma keys_are_strings (d : list (string * pyval)) :
  Forall (fun item => exists s, item = PStr s) (map (fun kv => PStr (fst kv)) d).
Proof. induction d; simpl; constructor; eauto. Qed.

(** C2: [dump_grants] returns [missing] in exactly two cases: the
    record's ['funding'] is absent or empty (falsy), or the code reads
    the award of some funding item and the read raises [PIDDeletedError]
    or [PIDDoesNotExistError]; in the second case the grants already
    built for the preceding items ([resolved], whose iterations ran to
    their end) are dropped with the rest. *)
Theorem dump_grants_missing_cases :
  forall obj,
    dump_grants obj = Ok PMissing <->
    (exists funding,
       py_get obj "funding" PNone = Ok funding /\ truthy funding = false) \/
    (exists resolved grants item rest award aid,
       py_get obj "funding" PNone = Ok (PList (resolved ++ item :: rest)) /\
       Forall2 iteration_appends resolved grants /\
       py_get item "award" PNone = Ok award /\
       py_get award "id" PNone = Ok aid /\
       truthy aid = true /\
       (a_service_read aid = Raise PIDDeletedError \/
        a_service_read aid = Raise PIDDoesNotExistError)).
Proof.
  intro obj. unfold MetadataSchema.dump_grants. split.
  - intro H. bind_inv H funding Hf.
    destruct (truthy funding) eqn:Ht; simpl in H; [| left; eauto].
    bind_inv H items Hi. right.
    destruct funding; simpl in Hi; try discriminate; injection Hi as <-.
    + now apply dump_grants_loop_strings in H; [| apply chars_are_strings].
    + apply dump_grants_loop_missing in H
        as (resolved & grants & item & rest & award & aid & -> & Hrest).
      exists resolved, grants, item, rest, award, aid. auto.
    + now apply dump_grants_loop_strings in H; [| apply keys_are_strings].
  - intros [(funding & Hf & Ht) | H].
    { rewrite Hf. simpl. now rewrite Ht. }
    destruct H as (resolved & grants & item & rest & award & aid & Hf & Hrest).
    rewrite Hf. cbn [bind py_iter].
    replace (truthy (PList (resolved ++ item :: rest))) with true
      by (now destruct resolved).
    cbn [negb]. apply dump_grants_loop_missing.
    exists resolved, grants, item, rest, award, aid. auto.
Qed.

(** The funders service answers a read with the record of the id it was
    asked for. *)
Hypothesis funders_read_by_id :
  forall fid funder,
    f_service_read fid = Ok funder -> getitem funder "id" = Ok fid.

Lemma iteration_appends_legacy_grant (funding_item grant : pyval) :
  iteration_appends funding_item grant <-> legacy_grant funding_item grant.
Proof.
  split.
  - intros (award0 & aid & award & H0 & H1 & H2 & H).
    apply read_award_Some in H2.
    unfold MetadataSchema.serialize_grant in H.
    bind_inv H award_funder Haf. bind_inv H fid Hfid.
    bind_inv H funder Hfunder. bind_inv H lg Hlg. bind_inv H lf Hlf.
    bind_inv H updated Hset. bind_inv H award_number Hnum.
    bind_inv H funder_id Hid. bind_inv H funder_doi Hdoi.
    injection H as <-.
    rewrite (funders_read_by_id _ _ Hfunder) in Hid. injection Hid as <-.
    exists award, award_funder, fid, funder, award_number, funder_doi.
    split; [exists award0, aid; auto |].
    repeat (split; [assumption |]).
    split; [exists lg, lf, updated; auto |].
    auto.
  - intros (award & award_funder & fid & funder & award_number & funder_doi
            & (award0 & aid & H0 & H1 & H2) & Haf & Hfid & Hfunder
            & (lg & lf & updated & Hlg & Hlf & Hset) & Hnum & Hdoi & ->).
    exists award0, aid, award.
    split; [exact H0 |]. split; [exact H1 |].
    split; [now apply read_award_Some |].
    unfold MetadataSchema.serialize_grant.
    rewrite Haf. simpl. rewrite Hfid. simpl. rewrite Hfunder. simpl.
    rewrite Hlg. simpl. rewrite Hlf. simpl. rewrite Hset. simpl.
    rewrite Hnum. simpl. rewrite (funders_read_by_id _ _ Hfunder). simpl.
    rewrite Hdoi. reflexivity.
Qed.

(** C1, with the condition for a list made explicit: for a record with a
    non-empty ['funding'] list,
    [dump_grants] returns a list exactly when every funding item has a
    legacy grant (its award resolves, and the lookups on the resolved
    award succeed); the list then holds, in order, one grant
    [{"id": "<funder_doi>::<award_number>"}] per funding item, with the
    resolved award's ['number'] and the [FUNDER_ROR_TO_DOI] entry of the
    id in the resolved award's ['funder'].  The funding item's own
    ['funder'] plays no part. *)
Theorem dump_grants_one_grant_per_item :
  forall obj funding,
    py_get obj "funding" PNone = Ok (PList funding) ->
    funding <> [] ->
    forall grants,
      dump_grants obj = Ok (PList grants) <->
      Forall2 legacy_grant funding grants.
Proof.
  intros obj funding Hf Hne grants.
  unfold MetadataSchema.dump_grants. rewrite Hf. cbn [bind py_iter].
  replace (truthy (PList funding)) with true by (now destruct funding).
  cbn [negb]. rewrite dump_grants_loop_list. split.
  - intros (grants' & HF & ->). simpl.
    eapply Forall2_impl; [| exact HF].
    intros item grant. apply iteration_appends_legacy_grant.
  - intro HF. exists grants. split; [| reflexivity].
    eapply Forall2_impl; [| exact HF].
    intros item grant. apply iteration_appends_legacy_grant.
Qed.

End GrantsProperties.

(** The sample funders service keeps the contract of a vocabulary read. *)
Lemma sample_funders_read_by_id :
  forall fid funder,
    Sample.f_service_read fid = Ok funder -> getitem funder "id" = Ok fid.
Proof.
  intros fid funder. unfold Sample.f_service_read.
  destruct (py_eq_str fid "00k4n6c32") eqn:E; [| discriminate].
  apply py_eq_str_true in E as ->. now intros [= <-].
Qed.

Lemma dump_grants_one_grant_per_item_witness :
  Forall2
    (legacy_grant Sample.py_str Sample.a_service_read Sample.f_service_read
       Sample._award Sample._funder Sample.FUNDER_ROR_TO_DOI)
    [Sample.funded]
    [PDict [("id", PStr "10.13039/501100000780::101004761")]].
Proof.
  apply (dump_grants_one_grant_per_item
           Sample.py_str Sample.a_service_read Sample.f_service_read
           Sample._award Sample._funder Sample.FUNDER_ROR_TO_DOI
           sample_funders_read_by_id Sample.metadata [Sample.funded]).
  - reflexivity.
  - discriminate.
  - reflexivity.
Defined.

(** A record with two funding items, the first in the awards vocabulary
    and the second not: no grant is returned, not even the first one. *)
Lemma dump_grants_unknown_award_counterexample :
  py_get (PDict [("funding", PList [Sample.funded; Sample.unknown_award])])
         "funding" PNone
    = Ok (PList [Sample.funded; Sample.unknown_award]) /\
  MetadataSchema.dump_grants
    Sample.py_str Sample.a_service_read Sample.f_service_read
    Sample._award Sample._funder Sample.FUNDER_ROR_TO_DOI
    (PDict [("funding", PList [Sample.funded; Sample.unknown_award])])
    = Ok PMissing /\
  (forall grants,
     MetadataSchema.dump_grants
       Sample.py_str Sample.a_service_read Sample.f_service_read
       Sample._award Sample._funder Sample.FUNDER_ROR_TO_DOI
       (PDict [("funding", PList [Sample.funded; Sample.unknown_award])])
     <> Ok (PList grants)).
Proof. repeat split; discriminate. Qed.

(** X6: [dump_grants] does not read the funding items' own ['funder']:
    setting it to anything in every item leaves the result as it is. *)
Lemma dump_grants_loop_ignores_item_funder
      (py_str : pyval -> string)
      (a_service_read f_service_read _award _funder : pyval -> outcome pyval)
      (FUNDER_ROR_TO_DOI : list (string * pyval)) (funder : pyval) :
  forall (funding : list (list (string * pyval))) (ret : list pyval),
    MetadataSchema.dump_grants_loop
      py_str a_service_read f_service_read _award _funder FUNDER_ROR_TO_DOI
      (map (fun item => PDict (dict_set "funder" funder item)) funding) ret =
    MetadataSchema.dump_grants_loop
      py_str a_service_read f_service_read _award _funder FUNDER_ROR_TO_DOI
      (map PDict funding) ret.
Proof.
  induction funding as [| item rest IH]; intro ret; [reflexivity |].
  cbn [map MetadataSchema.dump_grants_loop py_get].
  rewrite dict_lookup_set_other by discriminate.
  destruct (dict_lookup "award" item) as [award0 |]; cbn [bind].
  - destruct (py_get award0 "id" PNone) as [aid |]; cbn [bind]; [| reflexivity].
    destruct (MetadataSchema.read_award a_service_read award0 aid)
      as [[award |] |]; cbn [bind]; try reflexivity.
    destruct (MetadataSchema.serialize_grant _ _ _ _ _ award); cbn [bind];
      [apply IH | reflexivity].
  - reflexivity.
Qed.

(** * Further properties *)

(** ** [MetadataSchema.dump_grants]: shape of the result and failures *)

Section GrantsEdgeCases.

Variable py_str : pyval -> string.
Variable a_service_read : pyval -> outcome pyval.
Variable f_service_read : pyval -> outcome pyval.
Variable _award : pyval -> outcome pyval.
Variable _funder : pyval -> outcome pyval.
Variable FUNDER_ROR_TO_DOI : list (string * pyval).

Local Abbreviation read_award := (MetadataSchema.read_award a_service_read).
Local Abbreviation serialize_grant :=
  (MetadataSchema.serialize_grant
     py_str f_service_read _award _funder FUNDER_ROR_TO_DOI).
Local Abbreviation dump_grants_loop :=
  (MetadataSchema.dump_grants_loop
     py_str a_service_read f_service_read _award _funder FUNDER_ROR_TO_DOI).
Local Abbreviation dump_grants :=
  (MetadataSchema.dump_grants
     py_str a_service_read f_service_read _award _funder FUNDER_ROR_TO_DOI).
Local Abbreviation iteration_appends :=
  (iteration_appends
     py_str a_service_read f_service_read _award _funder FUNDER_ROR_TO_DOI).

(** Iterations that run to their end only extend [ret]. *)
Lemma dump_grants_loop_app :
  forall resolved grants,
    Forall2 iteration_appends resolved grants ->
    forall rest ret,
      dump_grants_loop (resolved ++ rest) ret =
        dump_grants_loop rest (ret ++ grants).
Proof.
  induction 1 as [| item grant resolved grants
                    (award0 & aid & award & H0 & H1 & H2 & H3) _ IH];
    intros rest ret.
  - now rewrite app_nil_r.
  - simpl. rewrite H0. simpl. rewrite H1. simpl. rewrite H2. simpl.
    rewrite H3. simpl. rewrite IH, <- app_assoc. reflexivity.
Qed.

Lemma serialize_grant_shape (award grant : pyval) :
  serialize_grant award = Ok grant ->
  exists id, grant = PDict [("id", PStr id)].
Proof.
  unfold MetadataSchema.serialize_grant. intro H.
  bind_inv H x1 H1. bind_inv H x2 H2. bind_inv H x3 H3. bind_inv H x4 H4.
  bind_inv H x5 H5. bind_inv H x6 H6. bind_inv H x7 H7. bind_inv H x8 H8.
  bind_inv H x9 H9. injection H as <-. eauto.
Qed.

Lemma truthy_iter_nonempty (v : pyval) (items : list pyval) :
  truthy v = true -> py_iter v = Ok items -> items <> [].
Proof.
  destruct v as [| | | s | l | d |]; simpl; try discriminate;
    intros Ht [= <-].
  - destruct s as [| c r]; [discriminate |].
    unfold chars. simpl.
    destruct r as [| c' r']; [discriminate |].
    destruct (is_continuation c'); [| discriminate].
    destruct (code_points (String c' r')); discriminate.
  - destruct l; [discriminate | discriminate].
  - destruct d; [discriminate | simpl; discriminate].
Qed.

(** X3: Whenever [dump_grants] returns a list, the list is not empty, has as
    many grants as ['funding'] has items, and each grant is a dict with
    the single key ['id'] holding a string. *)
Theorem dump_grants_list_shape :
  forall obj grants,
    dump_grants obj = Ok (PList grants) ->
    exists funding items,
      py_get obj "funding" PNone = Ok funding /\
      py_iter funding = Ok items /\
      length grants = length items /\
      grants <> [] /\
      Forall (fun grant => exists id, grant = PDict [("id", PStr id)]) grants.
Proof.
  intros obj grants H. unfold MetadataSchema.dump_grants in H.
  bind_inv H funding Hf.
  destruct (truthy funding) eqn:Ht; [| discriminate]. simpl in H.
  bind_inv H items Hi.
  apply dump_grants_loop_list in H as (grants' & HF & ->). simpl.
  exists funding, items. repeat split; auto.
  - symmetry. eapply Forall2_length; eauto.
  - pose proof (truthy_iter_nonempty _ _ Ht Hi) as Hne.
    destruct HF; [congruence | discriminate].
  - clear Hi. induction HF as [| item grant items grants'
                                 (award0 & aid & award & _ & _ & _ & Hs) _ IH];
      constructor; auto.
    eapply serialize_grant_shape; eauto.
Qed.

(** X4: A funding item without an ['award'] (funder-only funding) makes
    [dump_grants] raise [AttributeError], and an item whose award has
    neither an ['id'] nor a ['funder'] (a custom award) makes it raise
    [KeyError]: neither is turned into [missing]. *)
Theorem dump_grants_award_less_funding :
  forall obj resolved grants item rest,
    py_get obj "funding" PNone = Ok (PList (resolved ++ PDict item :: rest)) ->
    Forall2 iteration_appends resolved grants ->
    (dict_lookup "award" item = None ->
       dump_grants obj = Raise AttributeError) /\
    (forall award,
       dict_lookup "award" item = Some (PDict award) ->
       dict_lookup "id" award = None ->
       dict_lookup "funder" award = None ->
       dump_grants obj = Raise KeyError).
Proof.
  intros obj resolved grants item rest Hf HF.
  unfold MetadataSchema.dump_grants. rewrite Hf. cbn [bind py_iter].
  replace (truthy (PList (resolved ++ PDict item :: rest))) with true
    by (now destruct resolved).
  cbn [negb]. rewrite (dump_grants_loop_app _ _ HF). split.
  - intro Ha. simpl. rewrite Ha. reflexivity.
  - intros award Ha Hid Hfu. simpl. rewrite Ha. simpl. rewrite Hid. simpl.
    unfold MetadataSchema.serialize_grant. simpl. rewrite Hfu. reflexivity.
Qed.

(** X5: The [try] covers the award read only: when the award of an item
    resolves and the funders service then raises, whatever the exception
    ([PIDDoesNotExistError] included), [dump_grants] raises it. *)
Theorem dump_grants_funder_read_error :
  forall obj resolved grants item rest award0 aid award award_funder fid e,
    py_get obj "funding" PNone = Ok (PList (resolved ++ item :: rest)) ->
    Forall2 iteration_appends resolved grants ->
    py_get item "award" PNone = Ok award0 ->
    py_get award0 "id" PNone = Ok aid ->
    read_award award0 aid = Ok (Some award) ->
    getitem award "funder" = Ok award_funder ->
    getitem award_funder "id" = Ok fid ->
    f_service_read fid = Raise e ->
    dump_grants obj = Raise e.
Proof.
  intros obj resolved grants item rest award0 aid award award_funder fid e
         Hf HF H0 H1 H2 H3 H4 H5.
  unfold MetadataSchema.dump_grants. rewrite Hf. cbn [bind py_iter].
  replace (truthy (PList (resolved ++ item :: rest))) with true
    by (now destruct resolved).
  cbn [negb]. rewrite (dump_grants_loop_app _ _ HF).
  simpl. rewrite H0. simpl. rewrite H1. simpl. rewrite H2. simpl.
  unfold MetadataSchema.serialize_grant.
  rewrite H3. simpl. rewrite H4. simpl. rewrite H5. reflexivity.
Qed.

End GrantsEdgeCases.

Lemma sample_funded_appends :
  Forall2
    (iteration_appends Sample.py_str Sample.a_service_read Sample.f_service_read
       Sample._award Sample._funder Sample.FUNDER_ROR_TO_DOI)
    [Sample.funded]
    [PDict [("id", PStr "10.13039/501100000780::101004761")]].
Proof.
  repeat constructor.
  exists (PDict [("id", PStr "00k4n6c32::101004761")]),
         (PStr "00k4n6c32::101004761"),
         (PDict [("id", PStr "00k4n6c32::101004761");
                 ("number", PStr "101004761");
                 ("funder", PDict [("id", PStr "00k4n6c32")])]).
  repeat split.
Qed.

Lemma dump_grants_list_shape_witness :
  exists funding items,
    py_get Sample.metadata "funding" PNone = Ok funding /\
    py_iter funding = Ok items /\
    length [PDict [("id", PStr "10.13039/501100000780::101004761")]] =
      length items /\
    [PDict [("id", PStr "10.13039/501100000780::101004761")]] <> [] /\
    Forall (fun grant => exists id, grant = PDict [("id", PStr id)])
      [PDict [("id", PStr "10.13039/501100000780::101004761")]].
Proof.
  apply (dump_grants_list_shape
           Sample.py_str Sample.a_service_read Sample.f_service_read
           Sample._award Sample._funder Sample.FUNDER_ROR_TO_DOI
           Sample.metadata).
  reflexivity.
Defined.

Lemma dump_grants_award_less_funding_witness :
  MetadataSchema.dump_grants
    Sample.py_str Sample.a_service_read Sample.f_service_read
    Sample._award Sample._funder Sample.FUNDER_ROR_TO_DOI
    (PDict [("funding", PList [Sample.funded; PDict Sample.funder_only])])
  = Raise AttributeError.
Proof.
  apply (proj1 (dump_grants_award_less_funding
                  Sample.py_str Sample.a_service_read Sample.f_service_read
                  Sample._award Sample._funder Sample.FUNDER_ROR_TO_DOI
                  (PDict [("funding",
                           PList [Sample.funded; PDict Sample.funder_only])])
                  [Sample.funded] _ Sample.funder_only []
                  eq_refl sample_funded_appends)).
  reflexivity.
Defined.

Lemma dump_grants_funder_read_error_witness :
  MetadataSchema.dump_grants
    Sample.py_str Sample.a_service_read Sample.f_service_read
    Sample._award Sample._funder Sample.FUNDER_ROR_TO_DOI
    (PDict [("funding", PList [Sample.funded; Sample.custom_award])])
  = Raise PIDDoesNotExistError.
Proof.
  apply (dump_grants_funder_read_error
           Sample.py_str Sample.a_service_read Sample.f_service_read
           Sample._award Sample._funder Sample.FUNDER_ROR_TO_DOI
           (PDict [("funding", PList [Sample.funded; Sample.custom_award])])
           [Sample.funded] _ Sample.custom_award []
           (PDict [("title", PDict [("en", PStr "A grant")]);
                   ("number", PStr "X-1");
                   ("funder", PDict [("id", PStr "05wwcw481")])])
           PNone
           (PDict [("title", PDict [("en", PStr "A grant")]);
                   ("number", PStr "X-1");
                   ("funder", PDict [("id", PStr "05wwcw481")])])
           (PDict [("id", PStr "05wwcw481")]) (PStr "05wwcw481")
           PIDDoesNotExistError
           eq_refl sample_funded_appends);
    reflexivity.
Defined.

(** ** Resource types: from the migration to the legacy serializer *)

Section ResourceTypeRoundTrip.

Variable py_str : pyval -> string.

(** [str()] of a str is the str itself. *)
Hypothesis py_str_of_str : forall s, py_str (PStr s) = s.

(** The dict that [dump_resource_type] returns for the id which
    [_resource_type] makes of a legacy [type] and [subtype] without
    '-'. *)
Lemma resource_type_round_trip_value :
  forall data original resource_type (result : list (string * pyval)) (t : string),
    getitem data "type" = Ok (PStr t) ->
    str_contains "-" t = false ->
    ZenodoRecordEntry._resource_type py_str data = Ok resource_type ->
    py_get original "resource_type" (PDict []) = Ok resource_type ->
    (forall st : string,
       py_get data "subtype" PNone = Ok (PStr st) ->
       st <> "" ->
       str_contains "-" st = false ->
       MetadataSchema.dump_resource_type (PDict result) original =
         Ok (PDict (dict_set (t ++ "_type") (PStr st)
                      (dict_set "upload_type" (PStr t) result)))) /\
    (forall st,
       py_get data "subtype" PNone = Ok st ->
       truthy st = false ->
       t <> "" ->
       MetadataSchema.dump_resource_type (PDict result) original =
         Ok (PDict (dict_set "upload_type" (PStr t) result))).
Proof.
  intros data original resource_type result t Ht Hdash Hrt Horig.
  unfold ZenodoRecordEntry._resource_type in Hrt. rewrite Ht in Hrt.
  simpl in Hrt. unfold MetadataSchema.dump_resource_type. rewrite Horig.
  simpl. split.
  - intros st Hst Hne Hsub. rewrite Hst in Hrt. simpl in Hrt.
    replace (String.eqb st "") with false in Hrt
      by (symmetry; now apply String.eqb_neq).
    simpl in Hrt. injection Hrt as <-. rewrite !py_str_of_str.
    assert (Hparts : str_split "-" None (t ++ String "-" st) = [t; st]).
    { rewrite str_split_at_first by (congruence || assumption).
      simpl. now rewrite str_split_no_sep. }
    simpl.
    replace (String.eqb (t ++ String "-" st) "") with false
      by (symmetry; apply String.eqb_neq; destruct t; discriminate).
    simpl. rewrite Hparts, py_index_first. simpl.
    rewrite str_contains_app. reflexivity.
  - intros st Hst Hfalsy Hne. rewrite Hst in Hrt. simpl in Hrt.
    rewrite Hfalsy in Hrt. injection Hrt as <-. simpl.
    replace (String.eqb t "") with false
      by (symmetry; now apply String.eqb_neq).
    simpl. rewrite (str_split_no_sep "-" None t Hdash), py_index_first.
    simpl. rewrite Hdash. reflexivity.
Qed.

(** X1: The legacy [type] and [subtype] that the migration joins into a
    resource-type id are what the result of [dump_resource_type] holds
    under ['upload_type'] and ['<type>_type'], provided neither contains
    a '-' and the type is not "upload" (whose ['<type>_type'] is
    ['upload_type'] itself); a record without a subtype has its type
    under ['upload_type']. *)
Theorem resource_type_round_trip :
  forall data original resource_type (result : list (string * pyval)) (t : string),
    getitem data "type" = Ok (PStr t) ->
    str_contains "-" t = false ->
    ZenodoRecordEntry._resource_type py_str data = Ok resource_type ->
    py_get original "resource_type" (PDict []) = Ok resource_type ->
    (forall st : string,
       py_get data "subtype" PNone = Ok (PStr st) ->
       st <> "" ->
       str_contains "-" st = false ->
       t <> "upload" ->
       exists result',
         MetadataSchema.dump_resource_type (PDict result) original =
           Ok (PDict result') /\
         dict_lookup "upload_type" result' = Some (PStr t) /\
         dict_lookup (t ++ "_type") result' = Some (PStr st)) /\
    (forall st,
       py_get data "subtype" PNone = Ok st ->
       truthy st = false ->
       t <> "" ->
       exists result',
         MetadataSchema.dump_resource_type (PDict result) original =
           Ok (PDict result') /\
         dict_lookup "upload_type" result' = Some (PStr t)).
Proof.
  intros data original resource_type result t Ht Hdash Hrt Horig.
  destruct (resource_type_round_trip_value
              data original resource_type result t Ht Hdash Hrt Horig)
    as [Hboth Htype].
  split.
  - intros st Hst Hne Hsub Hupload.
    eexists. split; [exact (Hboth st Hst Hne Hsub) |]. split.
    + rewrite dict_lookup_set_other; [apply dict_lookup_set_same |].
      intro E. symmetry in E. now apply type_field_is_upload_type in E.
    + apply dict_lookup_set_same.
  - intros st Hst Hfalsy Hne.
    eexists. split; [exact (Htype st Hst Hfalsy Hne) |].
    apply dict_lookup_set_same.
Qed.

End ResourceTypeRoundTrip.

Lemma resource_type_round_trip_witness :
  exists result',
    MetadataSchema.dump_resource_type (PDict [("title", PStr "A dataset")])
      (PDict [("resource_type", PDict [("id", PStr "publication-article")])])
      = Ok (PDict result') /\
    dict_lookup "upload_type" result' = Some (PStr "publication") /\
    dict_lookup "publication_type" result' = Some (PStr "article").
Proof.
  apply (proj1 (resource_type_round_trip Sample.py_str (fun s => eq_refl)
                  (PDict [("type", PStr "publication");
                          ("subtype", PStr "article")])
                  (PDict [("resource_type",
                           PDict [("id", PStr "publication-article")])])
                  _ [("title", PStr "A dataset")] "publication"
                  eq_refl eq_refl eq_refl eq_refl)
           "article").
  - reflexivity.
  - discriminate.
  - reflexivity.
  - discriminate.
Defined.

(** ** [MetadataSchema.dump_resource_type]: what it leaves alone *)

(** X2: Whenever [dump_resource_type] returns, every field of the dumped
    result other than ['upload_type'] comes back as it was, but for one:
    when the original's resource-type id has a '-', the field
    ['<upload_type>_type'], [upload_type] being the part of that id
    before its first '-'. *)
Theorem dump_resource_type_keeps_other_fields :
  forall (result : list (string * pyval)) original out,
    MetadataSchema.dump_resource_type (PDict result) original = Ok out ->
    exists result',
      out = PDict result' /\
      ((forall k,
          k <> "upload_type" ->
          dict_lookup k result' = dict_lookup k result)
       \/
       (exists resource_type upload_type rest,
          py_get original "resource_type" (PDict []) = Ok resource_type /\
          py_get resource_type "id" PNone =
            Ok (PStr (upload_type ++ "-" ++ rest)) /\
          str_contains "-" upload_type = false /\
          forall k,
            k <> "upload_type" ->
            k <> (upload_type ++ "_type")%string ->
            dict_lookup k result' = dict_lookup k result)).
Proof.
  intros result original out H.
  unfold MetadataSchema.dump_resource_type in H.
  bind_inv H resource_type Hrt. bind_inv H rid Hid.
  destruct (truthy rid).
  - bind_inv H parts Hparts. bind_inv H upload_type Hup.
    simpl in H. bind_inv H has_dash Hdash.
    destruct rid as [| | | id | | |]; try discriminate.
    simpl in Hparts, Hdash. injection Hparts as <-. injection Hdash as <-.
    destruct (str_contains "-" id) eqn:Hcontains.
    + bind_inv H parts' Hparts'. bind_inv H subtype Hsub.
      injection H as <-.
      destruct (str_contains_first _ _ Hcontains) as (p & rest & -> & Hp).
      rewrite (str_split_at_first "-" None) in Hup by (congruence || assumption).
      rewrite py_index_first in Hup. injection Hup as <-.
      eexists. split; [reflexivity |]. right.
      exists resource_type, p, rest. repeat split; auto.
      intros k Hk1 Hk2. now rewrite !dict_lookup_set_other.
    + injection H as <-. eexists. split; [reflexivity |]. left.
      intros k Hk. now rewrite dict_lookup_set_other.
  - injection H as <-. exists result. split; [reflexivity |]. left. auto.
Qed.

Lemma dump_resource_type_keeps_other_fields_witness :
  exists result',
    PDict [("title", PStr "A thesis"); ("upload_type", PStr "publication");
           ("publication_type", PStr "phd")] = PDict result' /\
    ((forall k,
        k <> "upload_type" ->
        dict_lookup k result' = dict_lookup k [("title", PStr "A thesis")])
     \/
     (exists resource_type upload_type rest,
        py_get Sample.metadata "resource_type" (PDict []) = Ok resource_type /\
        py_get resource_type "id" PNone =
          Ok (PStr (upload_type ++ "-" ++ rest)) /\
        str_contains "-" upload_type = false /\
        forall k,
          k <> "upload_type" ->
          k <> (upload_type ++ "_type")%string ->
          dict_lookup k result' = dict_lookup k [("title", PStr "A thesis")])).
Proof.
  apply (dump_resource_type_keeps_other_fields
           [("title", PStr "A thesis")] Sample.metadata).
  reflexivity.
Defined.

(** ** [LegacySchema.dump_files]: shape of the result and failures *)

Section FilesEdgeCases.

Variable py_str : pyval -> string.

Lemma dump_files_loop_length (bucket_url files_url : pyval) :
  forall entries result out,
    LegacySchema.dump_files_loop py_str bucket_url files_url entries result
      = Ok out ->
    length out = (length result + length entries)%nat.
Proof.
  induction entries as [| f rest IH]; intros result out H; simpl in H.
  - injection H as <-. simpl. lia.
  - bind_inv H r Hr. apply IH in H. rewrite H, length_app. simpl. lia.
Qed.

(** X7: Whenever [dump_files] returns, the result is [missing] for a record
    without file entries, and otherwise a list with one element per file
    entry: never an empty list. *)
Theorem dump_files_never_empty :
  forall obj out,
    LegacySchema.dump_files py_str obj = Ok out ->
    exists files entries,
      getitem obj "files" = Ok files /\
      getitem files "entries" = Ok (PDict entries) /\
      ((entries = [] /\ out = PMissing) \/
       (exists serialized,
          out = PList serialized /\
          serialized <> [] /\
          length serialized = length entries)).
Proof.
  intros obj out H. unfold LegacySchema.dump_files in H.
  bind_inv H links Hl. bind_inv H bucket_url Hb. bind_inv H links' Hl'.
  bind_inv H files_url Hfu. bind_inv H files Hf. bind_inv H entries He.
  bind_inv H values Hv. bind_inv H serialized Hr.
  destruct entries as [| | | | | entries |]; try discriminate.
  injection Hv as <-. exists files, entries. repeat split; auto.
  apply dump_files_loop_length in Hr. simpl in Hr. rewrite length_map in Hr.
  injection H as <-.
  destruct serialized as [| r serialized].
  - left. split; [| reflexivity]. now destruct entries.
  - right. exists (r :: serialized). repeat split; [discriminate | exact Hr].
Qed.

(** X8: A stored checksum without a ':' (no algorithm prefix) makes
    [dump_files] raise [IndexError], also after entries that are well
    formed. *)
Theorem dump_files_checksum_without_colon :
  forall obj links bucket_url files_url files entries
         good stored bad rest id key size checksum,
    getitem obj "links" = Ok links ->
    py_get links "bucket" PNone = Ok bucket_url ->
    getitem links "files" = Ok files_url ->
    getitem obj "files" = Ok files ->
    getitem files "entries" = Ok (PDict entries) ->
    map snd entries = good ++ bad :: rest ->
    Forall2 has_fields good stored ->
    getitem bad "id" = Ok id ->
    getitem bad "key" = Ok key ->
    getitem bad "size" = Ok size ->
    getitem bad "checksum" = Ok (PStr checksum) ->
    str_contains ":" checksum = false ->
    LegacySchema.dump_files py_str obj = Raise IndexError.
Proof.
  intros obj links bucket_url files_url files entries
         good stored bad rest id key size checksum
         Hl Hb Hfu Hf He Hv Hgood Hid Hkey Hsize Hsum Hcolon.
  unfold LegacySchema.dump_files.
  rewrite Hl. simpl. rewrite Hb. simpl. rewrite Hfu, Hf. simpl.
  rewrite He. simpl. rewrite Hv. clear Hv.
  assert (Hloop : forall result,
             LegacySchema.dump_files_loop py_str bucket_url files_url
               (good ++ bad :: rest) result = Raise IndexError).
  { induction Hgood as [| f sf good stored Hfields _ IH]; intro result; simpl.
    - unfold LegacySchema.dump_file. rewrite Hid. simpl.
      destruct (truthy bucket_url); simpl;
        rewrite Hkey; simpl; rewrite Hsize; simpl; rewrite Hsum; simpl;
        rewrite (str_split_no_sep ":" (Some 1%nat) checksum Hcolon);
        reflexivity.
    - rewrite (dump_file_legacy_file py_str _ _ _ _ Hfields). simpl.
      apply IH. }
  now rewrite Hloop.
Qed.

End FilesEdgeCases.

Lemma dump_files_never_empty_witness :
  exists files entries,
    getitem Sample.published_record "files" = Ok files /\
    getitem files "entries" = Ok (PDict entries) /\
    ((entries = [] /\
      PList
        [PDict [("id", PStr "f1");
                ("filename", PStr "data.csv");
                ("filesize", PInt 12);
                ("checksum", PStr "0123:abcd");
                ("links",
                 PDict [("self", PStr "/api/records/1/files/f1");
                        ("download", PStr "/api/files/b1/data.csv")])]]
      = PMissing) \/
     (exists serialized,
        PList
          [PDict [("id", PStr "f1");
                  ("filename", PStr "data.csv");
                  ("filesize", PInt 12);
                  ("checksum", PStr "0123:abcd");
                  ("links",
                   PDict [("self", PStr "/api/records/1/files/f1");
                          ("download", PStr "/api/files/b1/data.csv")])]]
        = PList serialized /\
        serialized <> [] /\
        length serialized = length entries)).
Proof.
  apply (dump_files_never_empty Sample.py_str Sample.published_record).
  reflexivity.
Defined.

Lemma dump_files_checksum_without_colon_witness :
  LegacySchema.dump_files Sample.py_str Sample.bare_checksum_record
  = Raise IndexError.
Proof.
  refine (dump_files_checksum_without_colon Sample.py_str
            Sample.bare_checksum_record
            (PDict [("files", PStr "/api/records/1/files")])
            PNone (PStr "/api/records/1/files") _
            [("data.csv", Sample.file_entry); ("raw.bin", Sample.bare_file)]
            [Sample.file_entry]
            [{| file_id := PStr "f1"; file_key := PStr "data.csv";
                file_size := PInt 12; checksum_algorithm := "md5";
                checksum_digest := "0123:abcd" |}]
            Sample.bare_file [] (PStr "f2") (PStr "raw.bin") (PInt 3) "0123abcd"
            eq_refl eq_refl eq_refl eq_refl eq_refl eq_refl _
            eq_refl eq_refl eq_refl eq_refl eq_refl).
  repeat constructor.
Defined.

(** ** [MetadataSchema.dump_communities] *)

(** X9: Whenever [dump_communities] returns, the result is [missing] or a
    list with one [{"identifier": slug}] per element of ['_communities'],
    in order: never an empty list. *)
Theorem dump_communities_never_empty :
  forall obj out,
    MetadataSchema.dump_communities obj = Ok out ->
    out = PMissing \/
    exists communities slugs,
      py_get obj "_communities" (PList []) = Ok communities /\
      py_iter communities = Ok slugs /\
      slugs <> [] /\
      out = PList (map (fun c => PDict [("identifier", c)]) slugs).
Proof.
  intros obj out H. unfold MetadataSchema.dump_communities in H.
  bind_inv H communities Hc.
  destruct (truthy communities) eqn:Ht; [| left; congruence].
  bind_inv H slugs Hs. injection H as <-.
  right. exists communities, slugs. repeat split; auto.
  eapply truthy_iter_nonempty; eauto.
Qed.

Lemma dump_communities_never_empty_witness :
  PList [PDict [("identifier", PStr "zenodo")];
         PDict [("identifier", PStr "ecfunded")]] = PMissing \/
  exists communities slugs,
    py_get (PDict [("_communities", PList [PStr "zenodo"; PStr "ecfunded"])])
           "_communities" (PList []) = Ok communities /\
    py_iter communities = Ok slugs /\
    slugs <> [] /\
    PList [PDict [("identifier", PStr "zenodo")];
           PDict [("identifier", PStr "ecfunded")]] =
      PList (map (fun c => PDict [("identifier", c)]) slugs).
Proof.
  apply (dump_communities_never_empty
           (PDict [("_communities", PList [PStr "zenodo"; PStr "ecfunded"])])).
  reflexivity.
Defined.

(** ** [MetadataSchema.hook_alternate_identifiers] *)

Lemma dict_set_set (k : string) (v v' : pyval) (d : list (string * pyval)) :
  dict_set k v (dict_set k v' d) = dict_set k v d.
Proof.
  induction d as [| [k0 v0] d IH]; simpl.
  - now rewrite String.eqb_refl.
  - destruct (String.eqb k k0) eqn:E; simpl.
    + now rewrite String.eqb_refl.
    + now rewrite E, IH.
Qed.

Lemma list_at_get (k : string) (d : list (string * pyval)) (l : list pyval) :
  list_at k d l -> py_get (PDict d) k (PList []) = Ok (PList l).
Proof. intros [H | [H ->]]; simpl; now rewrite H. Qed.

Lemma hook_alternate_identifiers_loop_appends :
  forall identifiers values,
    Forall2 (fun i v => getitem i "identifier" = Ok v) identifiers values ->
    forall related,
      MetadataSchema.hook_alternate_identifiers_loop identifiers (PList related)
        = Ok (PList (related ++ map alternate_identifier values)).
Proof.
  induction 1 as [| i v identifiers values Hi _ IH]; intro related; simpl.
  - now rewrite app_nil_r.
  - rewrite Hi. simpl. rewrite IH, <- app_assoc. reflexivity.
Qed.

Lemma hook_alternate_identifiers_value :
  forall data identifiers values related,
    list_at "identifiers" data identifiers ->
    list_at "related_identifiers" data related ->
    Forall2 (fun i v => getitem i "identifier" = Ok v) identifiers values ->
    MetadataSchema.hook_alternate_identifiers (PDict data) =
      Ok (PDict (match related ++ map alternate_identifier values with
                 | [] => data
                 | all => dict_set "related_identifiers" (PList all) data
                 end)).
Proof.
  intros data identifiers values related Hi Hr Hv.
  unfold MetadataSchema.hook_alternate_identifiers.
  rewrite (list_at_get _ _ _ Hi). cbn [bind].
  rewrite (list_at_get _ _ _ Hr). cbn [bind py_iter].
  rewrite (hook_alternate_identifiers_loop_appends _ _ Hv). cbn [bind].
  now destruct (related ++ map alternate_identifier values).
Qed.

(** X10: [hook_alternate_identifiers] keeps the related identifiers the record
    already has, in order, and appends one ["isAlternateIdentifier"]
    entry per element of ['identifiers'], in order; when there is nothing
    of either kind the data is returned as it is, without a
    ['related_identifiers'] key being added. *)
Theorem hook_alternate_identifiers_appends :
  forall data identifiers values related,
    list_at "identifiers" data identifiers ->
    list_at "related_identifiers" data related ->
    Forall2 (fun i v => getitem i "identifier" = Ok v) identifiers values ->
    MetadataSchema.hook_alternate_identifiers (PDict data) =
      Ok (PDict (match related ++ map alternate_identifier values with
                 | [] => data
                 | all => dict_set "related_identifiers" (PList all) data
                 end)).
Proof.
  intros data identifiers values related Hi Hr Hv.
  unfold MetadataSchema.hook_alternate_identifiers.
  rewrite (list_at_get _ _ _ Hi). cbn [bind].
  rewrite (list_at_get _ _ _ Hr). cbn [bind py_iter].
  rewrite (hook_alternate_identifiers_loop_appends _ _ Hv). cbn [bind].
  now destruct (related ++ map alternate_identifier values).
Qed.

(** X11: The hook is not idempotent: run on its own result, it appends the
    alternate identifiers a second time. *)
Theorem hook_alternate_identifiers_twice :
  forall data identifiers values related,
    dict_lookup "identifiers" data = Some (PList identifiers) ->
    identifiers <> [] ->
    list_at "related_identifiers" data related ->
    Forall2 (fun i v => getitem i "identifier" = Ok v) identifiers values ->
    exists once,
      MetadataSchema.hook_alternate_identifiers (PDict data) = Ok once /\
      MetadataSchema.hook_alternate_identifiers once =
        Ok (PDict (dict_set "related_identifiers"
                     (PList (related ++ map alternate_identifier values
                               ++ map alternate_identifier values))
                     data)).
Proof.
  intros data identifiers values related Hi Hne Hr Hv.
  assert (Hvalues : values <> [])
    by (destruct Hv; [congruence | discriminate]).
  rewrite (hook_alternate_identifiers_value data identifiers values related)
    by (auto; now left).
  destruct (related ++ map alternate_identifier values) as [| x all] eqn:E.
  { apply app_eq_nil in E as [_ E]. now destruct values. }
  eexists. split; [reflexivity |].
  rewrite (hook_alternate_identifiers_value _ identifiers values (x :: all)).
  - rewrite <- E, <- app_assoc.
    destruct (related ++ map alternate_identifier values
                ++ map alternate_identifier values) eqn:E'.
    + apply app_eq_nil in E' as [_ E']. apply app_eq_nil in E' as [E' _].
      now destruct values.
    + now rewrite dict_set_set.
  - left. now rewrite dict_lookup_set_other.
  - left. apply dict_lookup_set_same.
  - exact Hv.
Qed.

(** X12: Whatever the data, when [hook_alternate_identifiers] returns it has
    changed no key but ['related_identifiers']; ['identifiers'] itself
    stays. *)
Theorem hook_alternate_identifiers_keeps_other_keys :
  forall (data : list (string * pyval)) out,
    MetadataSchema.hook_alternate_identifiers (PDict data) = Ok out ->
    exists data',
      out = PDict data' /\
      forall k,
        k <> "related_identifiers" ->
        dict_lookup k data' = dict_lookup k data.
Proof.
  intros data out H. unfold MetadataSchema.hook_alternate_identifiers in H.
  bind_inv H alternate Ha. bind_inv H related Hr.
  bind_inv H identifiers Hi. bind_inv H related' Hl.
  destruct (truthy related').
  - injection H as <-. eexists. split; [reflexivity |].
    intros k Hk. now apply dict_lookup_set_other.
  - injection H as <-. eauto.
Qed.

Lemma sample_identifier_values :
  Forall2 (fun i v => getitem i "identifier" = Ok v)
    [PDict [("scheme", PStr "ark"); ("identifier", PStr "ark:/123")]]
    [PStr "ark:/123"].
Proof. repeat constructor. Qed.

Lemma hook_alternate_identifiers_appends_witness :
  MetadataSchema.hook_alternate_identifiers (PDict Sample.identified_metadata) =
    Ok (PDict
          [("title", PStr "A dataset");
           ("identifiers",
            PList [PDict [("scheme", PStr "ark");
                          ("identifier", PStr "ark:/123")]]);
           ("related_identifiers",
            PList [PDict [("relation_type", PDict [("id", PStr "cites")]);
                          ("identifier", PStr "10.1234/foo")];
                   alternate_identifier (PStr "ark:/123")])]).
Proof.
  refine (hook_alternate_identifiers_appends Sample.identified_metadata
            _ [PStr "ark:/123"]
            [PDict [("relation_type", PDict [("id", PStr "cites")]);
                    ("identifier", PStr "10.1234/foo")]]
            (or_introl eq_refl) (or_introl eq_refl) sample_identifier_values).
Defined.

Lemma hook_alternate_identifiers_twice_witness :
  exists once,
    MetadataSchema.hook_alternate_identifiers (PDict Sample.identified_metadata)
      = Ok once /\
    MetadataSchema.hook_alternate_identifiers once =
      Ok (PDict
            (dict_set "related_identifiers"
               (PList ([PDict [("relation_type", PDict [("id", PStr "cites")]);
                               ("identifier", PStr "10.1234/foo")]]
                         ++ map alternate_identifier [PStr "ark:/123"]
                         ++ map alternate_identifier [PStr "ark:/123"]))
               Sample.identified_metadata)).
Proof.
  apply (hook_alternate_identifiers_twice Sample.identified_metadata
           [PDict [("scheme", PStr "ark"); ("identifier", PStr "ark:/123")]]).
  - reflexivity.
  - discriminate.
  - left. reflexivity.
  - exact sample_identifier_values.
Defined.

Lemma hook_alternate_identifiers_keeps_other_keys_witness :
  exists data',
    PDict
      [("title", PStr "A dataset");
       ("identifiers",
        PList [PDict [("scheme", PStr "ark");
                      ("identifier", PStr "ark:/123")]]);
       ("related_identifiers",
        PList [PDict [("relation_type", PDict [("id", PStr "cites")]);
                      ("identifier", PStr "10.1234/foo")];
               alternate_identifier (PStr "ark:/123")])]
    = PDict data' /\
    forall k,
      k <> "related_identifiers" ->
      dict_lookup k data' = dict_lookup k Sample.identified_metadata.
Proof.
  apply (hook_alternate_identifiers_keeps_other_keys Sample.identified_metadata).
  reflexivity.
Defined.

(** ** [LegacySchema.hook_metadata] *)

Lemma setitem_in_dict (d m : list (string * pyval)) (k1 k2 : string) (x : pyval) :
  dict_lookup k1 d = Some (PDict m) ->
  setitem_in (PDict d) k1 k2 x =
    Ok (PDict (dict_set k1 (PDict (dict_set k2 x m)) d)).
Proof. intro H. unfold setitem_in. simpl. now rewrite H. Qed.

(** The dict found under ['metadata'], or the empty one that
    [setdefault] puts there. *)
Lemma setdefault_metadata (d m : list (string * pyval)) :
  dict_lookup "metadata" d = Some (PDict m) \/
    (dict_lookup "metadata" d = None /\ m = []) ->
  exists d0,
    py_setdefault (PDict d) "metadata" (PDict []) = Ok (PDict d0) /\
    dict_lookup "metadata" d0 = Some (PDict m) /\
    dict_set "metadata" (PDict m) d = d0 /\
    forall k, k <> "metadata" -> dict_lookup k d0 = dict_lookup k d.
Proof.
  intros [H | [H ->]]; simpl; rewrite H.
  - exists d. repeat split; auto.
    clear -H. induction d as [| [k v] d IH]; [discriminate |].
    cbn [dict_lookup dict_set] in *.
    destruct (String.eqb "metadata" k) eqn:E.
    + apply String.eqb_eq in E as <-. now injection H as ->.
    + f_equal. now apply IH.
  - exists (dict_set "metadata" (PDict []) d). repeat split.
    + apply dict_lookup_set_same.
    + intros k Hk. now apply dict_lookup_set_other.
Qed.

(** X13: For a record with an ['access'], [hook_metadata] leaves the top
    level as it is but for ['metadata'], which it creates when absent;
    the metadata then holds the record's ['access'], and its
    ['custom_fields'], ['pids'] and ['parent'] ([None] for one the record
    does not have), next to everything the metadata held before. *)
Theorem hook_metadata_copies_top_level :
  forall data metadata access,
    dict_lookup "metadata" data = Some (PDict metadata) \/
      (dict_lookup "metadata" data = None /\ metadata = []) ->
    dict_lookup "access" data = Some access ->
    exists metadata',
      LegacySchema.hook_metadata (PDict data) =
        Ok (PDict (dict_set "metadata" (PDict metadata') data)) /\
      dict_lookup "access" metadata' = Some access /\
      dict_lookup "custom_fields" metadata' =
        Some (value_or_None (dict_lookup "custom_fields" data)) /\
      dict_lookup "pids" metadata' =
        Some (value_or_None (dict_lookup "pids" data)) /\
      dict_lookup "parent" metadata' =
        Some (value_or_None (dict_lookup "parent" data)) /\
      forall k,
        k <> "custom_fields" -> k <> "access" -> k <> "pids" -> k <> "parent" ->
        dict_lookup k metadata' = dict_lookup k metadata.
Proof.
  intros data metadata access Hm Ha.
  destruct (setdefault_metadata data metadata Hm) as (d0 & Hsd & Hm0 & Hd0 & Hk).
  exists (dict_set "parent" (value_or_None (dict_lookup "parent" data))
            (dict_set "pids" (value_or_None (dict_lookup "pids" data))
               (dict_set "access" access
                  (dict_set "custom_fields"
                     (value_or_None (dict_lookup "custom_fields" data))
                     metadata)))).
  split.
  - unfold LegacySchema.hook_metadata. rewrite Hsd. cbn [bind py_get getitem].
    rewrite (Hk "custom_fields") by discriminate.
    replace (match dict_lookup "custom_fields" data with
             | Some x => Ok x
             | None => Ok PNone
             end)
      with (Ok (value_or_None (dict_lookup "custom_fields" data)))
      by (now destruct (dict_lookup "custom_fields" data)).
    cbn [bind]. rewrite (setitem_in_dict _ _ _ _ _ Hm0). cbn [bind getitem].
    rewrite dict_lookup_set_other, (Hk "access"), Ha by discriminate.
    cbn [bind].
    rewrite (setitem_in_dict _ _ _ _ _ (dict_lookup_set_same _ _ _)).
    cbn [bind py_get]. rewrite dict_set_set.
    rewrite dict_lookup_set_other, (Hk "pids") by discriminate.
    replace (match dict_lookup "pids" data with
             | Some x => Ok x
             | None => Ok PNone
             end)
      with (Ok (value_or_None (dict_lookup "pids" data)))
      by (now destruct (dict_lookup "pids" data)).
    cbn [bind].
    rewrite (setitem_in_dict _ _ _ _ _ (dict_lookup_set_same _ _ _)).
    cbn [bind py_get]. rewrite dict_set_set.
    rewrite dict_lookup_set_other, (Hk "parent") by discriminate.
    replace (match dict_lookup "parent" data with
             | Some x => Ok x
             | None => Ok PNone
             end)
      with (Ok (value_or_None (dict_lookup "parent" data)))
      by (now destruct (dict_lookup "parent" data)).
    cbn [bind].
    rewrite (setitem_in_dict _ _ _ _ _ (dict_lookup_set_same _ _ _)).
    rewrite dict_set_set, <- Hd0, dict_set_set. reflexivity.
  - repeat split.
    + rewrite !dict_lookup_set_other by discriminate.
      apply dict_lookup_set_same.
    + rewrite !dict_lookup_set_other by discriminate.
      apply dict_lookup_set_same.
    + rewrite dict_lookup_set_other by discriminate.
      apply dict_lookup_set_same.
    + apply dict_lookup_set_same.
    + intros k H1 H2 H3 H4. now rewrite !dict_lookup_set_other.
Qed.

(** X14: A record without ['access'] makes [hook_metadata] raise [KeyError]
    (the other three fields it copies may be absent). *)
Theorem hook_metadata_requires_access :
  forall data metadata,
    dict_lookup "metadata" data = Some (PDict metadata) \/
      (dict_lookup "metadata" data = None /\ metadata = []) ->
    dict_lookup "access" data = None ->
    LegacySchema.hook_metadata (PDict data) = Raise KeyError.
Proof.
  intros data metadata Hm Ha.
  destruct (setdefault_metadata data metadata Hm) as (d0 & Hsd & Hm0 & Hd0 & Hk).
  unfold LegacySchema.hook_metadata. rewrite Hsd. cbn [bind py_get].
  destruct (match dict_lookup "custom_fields" d0 with
            | Some x => Ok x
            | None => Ok PNone
            end) as [cf | e] eqn:E;
    [| destruct (dict_lookup "custom_fields" d0); discriminate].
  cbn [bind]. rewrite (setitem_in_dict _ _ _ _ _ Hm0). cbn [bind getitem].
  rewrite dict_lookup_set_other, (Hk "access"), Ha by discriminate.
  reflexivity.
Qed.

Lemma hook_metadata_copies_top_level_witness :
  exists metadata',
    LegacySchema.hook_metadata (PDict Sample.api_record) =
      Ok (PDict (dict_set "metadata" (PDict metadata') Sample.api_record)) /\
    dict_lookup "access" metadata' =
      Some (PDict [("record", PStr "public"); ("files", PStr "public")]) /\
    dict_lookup "custom_fields" metadata' =
      Some (value_or_None (dict_lookup "custom_fields" Sample.api_record)) /\
    dict_lookup "pids" metadata' =
      Some (value_or_None (dict_lookup "pids" Sample.api_record)) /\
    dict_lookup "parent" metadata' =
      Some (value_or_None (dict_lookup "parent" Sample.api_record)) /\
    forall k,
      k <> "custom_fields" -> k <> "access" -> k <> "pids" -> k <> "parent" ->
      dict_lookup k metadata' = dict_lookup k [("title", PStr "A dataset")].
Proof.
  apply (hook_metadata_copies_top_level Sample.api_record
           [("title", PStr "A dataset")]).
  - left. reflexivity.
  - reflexivity.
Defined.

Lemma hook_metadata_requires_access_witness :
  LegacySchema.hook_metadata (PDict [("id", PStr "1235")]) = Raise KeyError.
Proof.
  apply (hook_metadata_requires_access [("id", PStr "1235")] []).
  - right. split; reflexivity.
  - reflexivity.
Defined.

(** ** [ZenodoRecordEntry]: persistent identifiers and access *)

(** X15: [_pids] always gives the OAI identifier, and gives a DOI, registered
    with DataCite, exactly when the record has a non-empty ['doi']. *)
Theorem pids_oai_and_optional_doi :
  forall entry record oai oai_id doi,
    getitem entry "json" = Ok record ->
    getitem record "_oai" = Ok oai ->
    getitem oai "id" = Ok oai_id ->
    py_get record "doi" PNone = Ok doi ->
    ZenodoRecordEntry._pids entry =
      Ok (PDict
            (("oai", PDict [("provider", PStr "oai"); ("identifier", oai_id)])
             :: if truthy doi
                then [("doi", PDict [("client", PStr "datacite");
                                     ("provider", PStr "datacite");
                                     ("identifier", doi)])]
                else [])).
Proof.
  intros entry record oai oai_id doi Hj Ho Hi Hd.
  unfold ZenodoRecordEntry._pids.
  rewrite Hj. simpl. rewrite Ho. simpl. rewrite Hi. simpl. rewrite Hd. simpl.
  destruct (truthy doi) eqn:Ht; [| reflexivity].
  destruct record as [| | | | | r |]; try discriminate.
  simpl in Hd |- *. destruct (dict_lookup "doi" r).
  - now injection Hd as ->.
  - injection Hd as <-. discriminate.
Qed.

Lemma pids_oai_and_optional_doi_witness :
  ZenodoRecordEntry._pids Sample.legacy_record =
    Ok (PDict
          [("oai", PDict [("provider", PStr "oai");
                          ("identifier", PStr "oai:zenodo.org:1235")]);
           ("doi", PDict [("client", PStr "datacite");
                          ("provider", PStr "datacite");
                          ("identifier", PStr "10.5281/zenodo.1235")])]).
Proof.
  refine (pids_oai_and_optional_doi Sample.legacy_record _ _ _
            (PStr "10.5281/zenodo.1235") eq_refl eq_refl eq_refl eq_refl).
Defined.

(** X16: Whenever [_access] returns, the record is public, the files are
    either public or restricted, and public files never come with an
    embargo: an embargo is there exactly for an ["embargoed"] entry,
    whose files are restricted. *)
Theorem access_embargo_implies_restricted :
  forall entry out,
    ZenodoRecordEntry._access entry = Ok out ->
    exists r files,
      out = PDict r /\
      dict_lookup "record" r = Some (PStr "public") /\
      dict_lookup "files" r = Some (PStr files) /\
      (files = "public" \/ files = "restricted") /\
      (files = "public" -> dict_lookup "embargo" r = None) /\
      (dict_lookup "embargo" r <> None ->
       exists record,
         getitem entry "json" = Ok record /\
         getitem record "access_right" = Ok (PStr "embargoed")).
Proof.
  intros entry out H. unfold ZenodoRecordEntry._access in H.
  bind_inv H record Hr. bind_inv H access_right Ha.
  bind_inv H access_right' Ha'.
  rewrite Ha in Ha'. injection Ha' as <-.
  destruct (py_eq_str access_right "embargoed") eqn:Ee.
  - apply py_eq_str_true in Ee as ->.
    bind_inv H embargo_date Hd. injection H as <-. simpl.
    eexists _, _. repeat split; eauto. discriminate.
  - injection H as <-.
    destruct (py_eq_str access_right "open"); simpl;
      eexists _, _; repeat split; eauto;
      intro Hembargo; simpl in Hembargo; congruence.
Qed.

Lemma access_embargo_implies_restricted_witness :
  exists r files,
    PDict [("record", PStr "public"); ("files", PStr "restricted");
           ("embargo", PDict [("until", PStr "2030-01-01");
                              ("active", PBool true)])] = PDict r /\
    dict_lookup "record" r = Some (PStr "public") /\
    dict_lookup "files" r = Some (PStr files) /\
    (files = "public" \/ files = "restricted") /\
    (files = "public" -> dict_lookup "embargo" r = None) /\
    (dict_lookup "embargo" r <> None ->
     exists record,
       getitem Sample.legacy_entry "json" = Ok record /\
       getitem record "access_right" = Ok (PStr "embargoed")).
Proof.
  apply (access_embargo_implies_restricted Sample.legacy_entry).
  reflexivity.
Defined.

(** ** [ZenodoRecordTransform]: invariants of the parent and the files *)

(** X17: Whenever [_community_id] returns, the result is the empty dict or
    has exactly one id, which is also its default. *)
Theorem community_id_default_is_the_id :
  forall entry out,
    ZenodoRecordTransform._community_id entry = Ok out ->
    out = PDict [] \/
    exists slug,
      truthy slug = true /\
      out = PDict [("ids", PList [slug]); ("default", slug)].
Proof.
  intros entry out H. unfold ZenodoRecordTransform._community_id in H.
  bind_inv H json Hj. bind_inv H communities Hc.
  destruct (truthy communities); [| left; congruence].
  bind_inv H slug Hs.
  destruct (truthy slug) eqn:Ht; injection H as <-; eauto.
Qed.

Lemma community_id_default_is_the_id_witness :
  PDict [("ids", PList [PStr "zenodo"]); ("default", PStr "zenodo")] = PDict [] \/
  exists slug,
    truthy slug = true /\
    PDict [("ids", PList [PStr "zenodo"]); ("default", PStr "zenodo")] =
      PDict [("ids", PList [slug]); ("default", slug)].
Proof.
  apply (community_id_default_is_the_id Sample.legacy_entry). reflexivity.
Defined.

(** X18: Whenever [_parent] returns, the parent has the creation date, the
    update date and the version id that [ZenodoRecordEntry] gives the
    record itself, and its communities are those of [_community_id]. *)
Theorem parent_shares_record_fields :
  forall entry parent,
    ZenodoRecordTransform._parent entry = Ok parent ->
    getitem parent "created" = ZenodoRecordEntry._created entry /\
    getitem parent "updated" = ZenodoRecordEntry._updated entry /\
    getitem parent "version_id" = ZenodoRecordEntry._version_id entry /\
    exists json,
      getitem parent "json" = Ok json /\
      getitem json "communities" = ZenodoRecordTransform._community_id entry.
Proof.
  intros entry parent H. unfold ZenodoRecordTransform._parent in H.
  bind_inv H created Hc. bind_inv H updated Hu. bind_inv H version_id Hv.
  bind_inv H json Hj. bind_inv H conceptrecid Hid. bind_inv H json' Hj'.
  bind_inv H owners Ho. bind_inv H owners' Ho'. bind_inv H communities Hcomm.
  injection H as <-.
  unfold ZenodoRecordEntry._created, ZenodoRecordEntry._updated,
    ZenodoRecordEntry._version_id.
  rewrite Hc, Hu, Hv, Hcomm. repeat split. eexists. split; reflexivity.
Qed.

Lemma parent_shares_record_fields_witness :
  getitem
    (PDict
       [("created", PStr "2020-01-01");
        ("updated", PStr "2020-02-02");
        ("version_id", PInt 3);
        ("json",
         PDict [("id", PStr "1234");
                ("access",
                 PDict [("owned_by",
                         PList [PDict [("user", PInt 7)];
                                PDict [("user", PInt 9)]])]);
                ("communities",
                 PDict [("ids", PList [PStr "zenodo"]);
                        ("default", PStr "zenodo")])])])
    "created" = ZenodoRecordEntry._created Sample.legacy_entry.
Proof.
  apply (parent_shares_record_fields Sample.legacy_entry). reflexivity.
Defined.

(** The files of an entry as [_record_files] reads them. *)
Lemma record_files_loop_map :
  forall files fields,
    Forall2 (fun f kzc =>
               getitem f "key" = Ok (fst (fst kzc)) /\
               getitem f "size" = Ok (snd (fst kzc)) /\
               getitem f "checksum" = Ok (snd kzc)) files fields ->
    ZenodoRecordTransform._record_files_loop files =
      Ok (map (fun kzc : pyval * pyval * pyval =>
                 PDict [("key", fst (fst kzc));
                        ("object_version",
                         PDict [("file", PDict [("size", snd (fst kzc));
                                                ("checksum", snd kzc)])])])
            fields).
Proof.
  induction 1 as [| f kzc files fields (Hk & Hz & Hc) _ IH]; simpl;
    [reflexivity |].
  unfold ZenodoRecordTransform._record_file.
  rewrite Hk. simpl. rewrite Hz. simpl. rewrite Hc. simpl. rewrite IH.
  reflexivity.
Qed.

(** X19: [_record_files] gives one file object per element of the entry's
    ['_files'], in order, each with the legacy key, size and checksum
    unchanged (the checksum keeps its algorithm prefix), and the empty
    list for an entry without ['_files']. *)
Theorem record_files_one_per_legacy_file :
  forall entry json files fields,
    getitem entry "json" = Ok (PDict json) ->
    list_at "_files" json files ->
    Forall2 (fun f kzc =>
               getitem f "key" = Ok (fst (fst kzc)) /\
               getitem f "size" = Ok (snd (fst kzc)) /\
               getitem f "checksum" = Ok (snd kzc)) files fields ->
    ZenodoRecordTransform._record_files entry =
      Ok (PList
            (map (fun kzc : pyval * pyval * pyval =>
                    PDict [("key", fst (fst kzc));
                           ("object_version",
                            PDict [("file", PDict [("size", snd (fst kzc));
                                                   ("checksum", snd kzc)])])])
               fields)).
Proof.
  intros entry json files fields Hj Hf Hfields.
  unfold ZenodoRecordTransform._record_files.
  rewrite Hj. cbn [bind]. rewrite (list_at_get _ _ _ Hf). cbn [bind py_iter].
  now rewrite (record_files_loop_map _ _ Hfields).
Qed.

Lemma record_files_one_per_legacy_file_witness :
  ZenodoRecordTransform._record_files Sample.legacy_record =
    Ok (PList
          [PDict [("key", PStr "data.csv");
                  ("object_version",
                   PDict [("file", PDict [("size", PInt 12);
                                          ("checksum", PStr "md5:0123")])])]]).
Proof.
  refine (record_files_one_per_legacy_file Sample.legacy_record _ _
            [(PStr "data.csv", PInt 12, PStr "md5:0123")]
            eq_refl (or_introl eq_refl) _).
  repeat constructor.
Defined.

(** X20: A legacy file without a ['checksum'] makes [_record_files] raise
    [KeyError]: no file object is produced with a field missing. *)
Theorem record_files_requires_checksum :
  forall entry json good fields bad rest key size,
    getitem entry "json" = Ok (PDict json) ->
    dict_lookup "_files" json = Some (PList (good ++ PDict bad :: rest)) ->
    Forall2 (fun f kzc =>
               getitem f "key" = Ok (fst (fst kzc)) /\
               getitem f "size" = Ok (snd (fst kzc)) /\
               getitem f "checksum" = Ok (snd kzc)) good fields ->
    dict_lookup "key" bad = Some key ->
    dict_lookup "size" bad = Some size ->
    dict_lookup "checksum" bad = None ->
    ZenodoRecordTransform._record_files entry = Raise KeyError.
Proof.
  intros entry json good fields bad rest key size Hj Hf Hgood Hk Hz Hc.
  unfold ZenodoRecordTransform._record_files.
  rewrite Hj. simpl. rewrite Hf. simpl.
  assert (Hloop : ZenodoRecordTransform._record_files_loop
                    (good ++ PDict bad :: rest) = Raise KeyError).
  { clear Hf. induction Hgood as [| f kzc good fields (H1 & H2 & H3) _ IH]; simpl.
    - unfold ZenodoRecordTransform._record_file. simpl.
      rewrite Hk. simpl. rewrite Hz. simpl. rewrite Hc. reflexivity.
    - unfold ZenodoRecordTransform._record_file at 1.
      rewrite H1. simpl. rewrite H2. simpl. rewrite H3. simpl. rewrite IH.
      reflexivity. }
  now rewrite Hloop.
Qed.

Lemma record_files_requires_checksum_witness :
  ZenodoRecordTransform._record_files
    (PDict [("json",
             PDict [("_files",
                     PList [PDict [("key", PStr "data.csv"); ("size", PInt 12);
                                   ("checksum", PStr "md5:0123")];
                            PDict [("key", PStr "raw.bin");
                                   ("size", PInt 3)]])])])
  = Raise KeyError.
Proof.
  refine (record_files_requires_checksum
            (PDict [("json",
                     PDict [("_files",
                             PList [PDict [("key", PStr "data.csv");
                                           ("size", PInt 12);
                                           ("checksum", PStr "md5:0123")];
                                    PDict [("key", PStr "raw.bin");
                                           ("size", PInt 3)]])])])
            _
            [PDict [("key", PStr "data.csv"); ("size", PInt 12);
                    ("checksum", PStr "md5:0123")]]
            [(PStr "data.csv", PInt 12, PStr "md5:0123")]
            [("key", PStr "raw.bin"); ("size", PInt 3)] []
            (PStr "raw.bin") (PInt 3)
            eq_refl eq_refl _ eq_refl eq_refl eq_refl).
  repeat constructor.
Defined.

(** ** [ZenodoRecordEntry._metadata]: creators *)

Section Creators.

Variable HumanName : pyval -> outcome ZenodoRecordEntry.human_name.

(** What the migration makes of one creator: a personal name, split by
    the name parser and displayed as "surnames, first". *)
Lemma creator_is_personal (c r : pyval) :
  ZenodoRecordEntry._creator HumanName c = Ok r ->
  exists c_name name person,
    getitem c "name" = Ok c_name /\
    HumanName c_name = Ok name /\
    getitem r "person_or_org" = Ok (PDict person) /\
    dict_lookup "type" person = Some (PStr "personal") /\
    dict_lookup "given_name" person =
      Some (PStr (ZenodoRecordEntry.first name)) /\
    dict_lookup "family_name" person =
      Some (PStr (ZenodoRecordEntry.surnames name)) /\
    dict_lookup "name" person =
      Some (PStr (ZenodoRecordEntry.surnames name ++ ", "
                  ++ ZenodoRecordEntry.first name)).
Proof.
  unfold ZenodoRecordEntry._creator. intro H.
  bind_inv H affiliation Haff. bind_inv H r1 Hr1.
  bind_inv H orcid Horcid. bind_inv H r2 Hr2.
  bind_inv H c_name Hname. bind_inv H name Hparse.
  exists c_name, name.
  destruct (truthy affiliation); [bind_inv Hr1 a Ha |];
    simpl in Hr1; injection Hr1 as <-;
    (destruct (truthy orcid); [bind_inv Hr2 o Ho |]);
    simpl in Hr2; injection Hr2 as <-;
    simpl in H; injection H as <-;
    eexists; repeat split; auto.
Qed.

Lemma creators_loop_personal :
  forall cs ret out,
    ZenodoRecordEntry._creators_loop HumanName cs ret = Ok out ->
    exists rs,
      out = ret ++ rs /\
      Forall2 (fun c r => ZenodoRecordEntry._creator HumanName c = Ok r) cs rs.
Proof.
  induction cs as [| c cs IH]; intros ret out H; simpl in H.
  - injection H as <-. exists []. split; [now rewrite app_nil_r | constructor].
  - bind_inv H r Hr. apply IH in H as (rs & -> & HF).
    exists (r :: rs). split; [now rewrite <- app_assoc | now constructor].
Qed.

(** X21: Whenever [_creators] returns, it has one creator per legacy creator,
    in order; each is of type ["personal"], with the given and family
    names the name parser finds in the legacy ['name'], and the display
    name "surnames, first". *)
Theorem creators_are_personal_names :
  forall data out,
    ZenodoRecordEntry._creators HumanName data = Ok out ->
    exists cs rs,
      py_iter data = Ok cs /\
      out = PList rs /\
      Forall2
        (fun c r =>
           exists c_name name person,
             getitem c "name" = Ok c_name /\
             HumanName c_name = Ok name /\
             getitem r "person_or_org" = Ok (PDict person) /\
             dict_lookup "type" person = Some (PStr "personal") /\
             dict_lookup "given_name" person =
               Some (PStr (ZenodoRecordEntry.first name)) /\
             dict_lookup "family_name" person =
               Some (PStr (ZenodoRecordEntry.surnames name)) /\
             dict_lookup "name" person =
               Some (PStr (ZenodoRecordEntry.surnames name ++ ", "
                           ++ ZenodoRecordEntry.first name)))
        cs rs.
Proof.
  intros data out H. unfold ZenodoRecordEntry._creators in H.
  bind_inv H cs Hcs. bind_inv H ret Hret. injection H as <-.
  apply creators_loop_personal in Hret as (rs & -> & HF).
  exists cs, rs. repeat split; auto.
  eapply Forall2_impl; [| exact HF].
  intros c r. apply creator_is_personal.
Qed.

(** X22: The affiliation and the ORCID of a creator are carried over exactly
    when the legacy creator has them (non-empty): the affiliation as the
    single entry of ['affiliations'], the ORCID as the single identifier
    of the person. *)
Theorem creator_affiliation_and_orcid :
  forall c r affiliation orcid,
    py_get c "affiliation" PNone = Ok affiliation ->
    py_get c "orcid" PNone = Ok orcid ->
    ZenodoRecordEntry._creator HumanName c = Ok r ->
    exists fields person,
      r = PDict fields /\
      dict_lookup "person_or_org" fields = Some (PDict person) /\
      dict_lookup "affiliations" fields =
        (if truthy affiliation
         then Some (PList [PDict [("name", affiliation)]])
         else None) /\
      dict_lookup "identifiers" person =
        (if truthy orcid
         then Some (PList [PDict [("scheme", PStr "orcid");
                                  ("identifier", orcid)]])
         else None).
Proof.
  intros c r affiliation orcid Haff Horcid H.
  unfold ZenodoRecordEntry._creator in H.
  rewrite Haff in H. cbn [bind] in H.
  bind_inv H r1 Hr1. rewrite Horcid in H. cbn [bind] in H.
  bind_inv H r2 Hr2. bind_inv H c_name Hname. bind_inv H name Hparse.
  assert (Ha : truthy affiliation = true -> getitem c "affiliation" = Ok affiliation).
  { intro Ht. destruct c as [| | | | | d |]; try discriminate.
    simpl in Haff |- *. destruct (dict_lookup "affiliation" d).
    - now injection Haff as ->.
    - injection Haff as <-. discriminate. }
  assert (Ho : truthy orcid = true -> getitem c "orcid" = Ok orcid).
  { intro Ht. destruct c as [| | | | | d |]; try discriminate.
    simpl in Horcid |- *. destruct (dict_lookup "orcid" d).
    - now injection Horcid as ->.
    - injection Horcid as <-. discriminate. }
  destruct (truthy affiliation); [rewrite (Ha eq_refl) in Hr1 |];
    simpl in Hr1; injection Hr1 as <-;
    (destruct (truthy orcid); [rewrite (Ho eq_refl) in Hr2 |]);
    simpl in Hr2; injection Hr2 as <-;
    simpl in H; injection H as <-;
    eexists _, _; repeat split.
Qed.

End Creators.

Lemma creators_are_personal_names_witness :
  exists cs rs,
    py_iter (PList [PDict [("name", PStr "Doe, Jane");
                           ("affiliation", PStr "CERN");
                           ("orcid", PStr "0000-0002-1825-0097")]]) = Ok cs /\
    PList
      [PDict [("person_or_org",
               PDict [("type", PStr "personal");
                      ("identifiers",
                       PList [PDict [("scheme", PStr "orcid");
                                     ("identifier",
                                      PStr "0000-0002-1825-0097")]]);
                      ("given_name", PStr "Jane");
                      ("family_name", PStr "Doe");
                      ("name", PStr "Doe, Jane")]);
              ("affiliations", PList [PDict [("name", PStr "CERN")]])]]
    = PList rs /\
    Forall2
      (fun c r =>
         exists c_name name person,
           getitem c "name" = Ok c_name /\
           Sample.HumanName c_name = Ok name /\
           getitem r "person_or_org" = Ok (PDict person) /\
           dict_lookup "type" person = Some (PStr "personal") /\
           dict_lookup "given_name" person =
             Some (PStr (ZenodoRecordEntry.first name)) /\
           dict_lookup "family_name" person =
             Some (PStr (ZenodoRecordEntry.surnames name)) /\
           dict_lookup "name" person =
             Some (PStr (ZenodoRecordEntry.surnames name ++ ", "
                         ++ ZenodoRecordEntry.first name)))
      cs rs.
Proof.
  apply (creators_are_personal_names Sample.HumanName). reflexivity.
Defined.

Lemma creator_affiliation_and_orcid_witness :
  exists fields person,
    PDict [("person_or_org",
            PDict [("type", PStr "personal");
                   ("given_name", PStr "Jane");
                   ("family_name", PStr "Doe");
                   ("name", PStr "Doe, Jane")])]
    = PDict fields /\
    dict_lookup "person_or_org" fields = Some (PDict person) /\
    dict_lookup "affiliations" fields =
      (if truthy (PStr "")
       then Some (PList [PDict [("name", PStr "")]])
       else None) /\
    dict_lookup "identifiers" person =
      (if truthy PNone
       then Some (PList [PDict [("scheme", PStr "orcid");
                                ("identifier", PNone)]])
       else None).
Proof.
  apply (creator_affiliation_and_orcid Sample.HumanName
           (PDict [("name", PStr "Doe, Jane"); ("affiliation", PStr "")]));
    reflexivity.
Defined.

(** ** [views.handle_validation_errors] *)

Lemma handle_validation_errors_loop_map :
  forall items deserialized,
    Views.handle_validation_errors_loop items deserialized =
      deserialized ++
      map (fun fv : string * pyval =>
             PDict [("field", PStr (fst fv)); ("messages", snd fv)]) items.
Proof.
  induction items as [| [field value] items IH]; intro deserialized; simpl.
  - now rewrite app_nil_r.
  - now rewrite IH, <- app_assoc.
Qed.

(** X23: For a validation error whose messages are a dict, the handler
    answers 400 with one [{"field": f, "messages": m}] per field, in the
    order of the dict; two different message dicts never give the same
    body; and messages that are not a dict (a bare list of messages)
    make the handler itself raise [AttributeError]. *)
Theorem handle_validation_errors_per_field :
  (forall dic : list (string * pyval),
     Views.handle_validation_errors (Views.ValidationError (PDict dic)) =
       Ok (PDict [("errors",
                   PList (map (fun fv : string * pyval =>
                                 PDict [("field", PStr (fst fv));
                                        ("messages", snd fv)]) dic))],
           400)) /\
  (forall dic dic' : list (string * pyval),
     Views.handle_validation_errors (Views.ValidationError (PDict dic)) =
       Views.handle_validation_errors (Views.ValidationError (PDict dic')) ->
     dic = dic') /\
  (forall messages : list pyval,
     Views.handle_validation_errors (Views.ValidationError (PList messages)) =
       Raise AttributeError).
Proof.
  assert (Hbody : forall dic : list (string * pyval),
             Views.handle_validation_errors (Views.ValidationError (PDict dic)) =
               Ok (PDict [("errors",
                           PList (map (fun fv : string * pyval =>
                                         PDict [("field", PStr (fst fv));
                                                ("messages", snd fv)]) dic))],
                   400)).
  { intro dic. simpl. now rewrite handle_validation_errors_loop_map. }
  split; [exact Hbody |]. split; [| reflexivity].
  intros dic dic'. rewrite !Hbody. intros [= H]. revert dic' H.
  induction dic as [| [f v] dic IH]; intros [| [f' v'] dic'] H;
    try discriminate; [reflexivity |].
  simpl in H. injection H as -> -> H. f_equal. now apply IH.
Qed.
